(** * PL-Fairscale: the sharded mixed-precision adapter and its strategy tests

    The repository is integration glue between a training framework
    (pytorch_lightning) and a sharding library (fairscale).  Everything it
    does is a decision about which collaborator to call and with which
    arguments.  The development therefore models a method body as a tree of
    collaborator calls ([py]), runs such a tree against an arbitrary
    collaborator ([handler]) and states the properties of the adapter for
    every collaborator.

    - [Py]: Python values, exceptions, the call-tree monad and its runs.
    - [sharded_amp]: src/pl_fairscale/precision/sharded_amp.py.
    - [test_ddp_fully_sharded]: tests/test_ddp_fully_sharded.py. *)

From Stdlib Require Import ZArith String DecimalString Decimal DecimalZ.
From Stdlib Require Import Floats.SpecFloat.
From stdpp Require Import gmap strings list fin_maps.

Open Scope string_scope.
Open Scope list_scope.

(** ** Python values, exceptions and call trees *)

Module Py.

(** Object identity: the address of an object in the interpreter's heap. *)
Abbreviation ref := positive.

Inductive pyval :=
| PyNone
| PyInt (n : Z)
| PyFloat (x : spec_float)
| PyStr (s : string)
| PyObj (r : ref).

(** A raised exception: the name of its class and [str(exc)]. *)
Record exn := Exn { exn_class : string; exn_msg : string }.

(** What a call does: it returns a value or raises. *)
Inductive outcome (A : Type) :=
| Returned (a : A)
| Raised (e : exn).
Arguments Returned {A} a.
Arguments Raised {A} e.

Definition outcome_map {A B} (f : A -> B) (o : outcome A) : outcome B :=
  match o with
  | Returned a => Returned (f a)
  | Raised e => Raised e
  end.

Definition raised {A} (o : outcome A) : option exn :=
  match o with
  | Returned _ => None
  | Raised e => Some e
  end.

(** The collaborators a module imports: the calls it can make on them and
    the type of what each call returns. *)
Record signature := Signature { call : Type; reply : call -> Type }.

(** A method body: it returns, raises, or calls a collaborator and goes on
    with what the collaborator did (so that [try]/[with] can be written). *)
Inductive py (S : signature) (A : Type) : Type :=
| Return (a : A)
| Raise (e : exn)
| Invoke (c : call S) (k : outcome (reply S c) -> py S A).
Arguments Return {S A} a.
Arguments Raise {S A} e.
Arguments Invoke {S A} c k.

Fixpoint bind {S A B} (p : py S A) (f : A -> py S B) : py S B :=
  match p with
  | Return a => f a
  | Raise e => Raise e
  | Invoke c k => Invoke c (fun r => bind (k r) f)
  end.

#[global] Instance py_ret {S} : MRet (py S) := fun A a => Return a.
#[global] Instance py_bind {S} : MBind (py S) := fun A B f p => bind p f.

(** An ordinary call: an exception of the collaborator propagates. *)
Definition invoke {S} (c : call S) : py S (reply S c) :=
  Invoke c (fun r => match r with
                     | Returned x => Return x
                     | Raised e => Raise e
                     end).

(** [try: p except BaseException as e: ...]: the outcome of [p] as a value. *)
Fixpoint try_ {S A} (p : py S A) : py S (outcome A) :=
  match p with
  | Return a => Return (Returned a)
  | Raise e => Return (Raised e)
  | Invoke c k => Invoke c (fun r => try_ (k r))
  end.

(** A collaborator: for every call, what it does to the world [W] it owns
    (the heap, the process group, the file system) and how the call ends. *)
Definition handler (S : signature) (W : Type) : Type :=
  forall c : call S, W -> outcome (reply S c) * W.

(** One collaborator call of a run, with how it ended. *)
Record event (S : signature) := Event { ev_call : call S; ev_outcome : outcome (reply S ev_call) }.
Arguments Event {S} ev_call ev_outcome.
Arguments ev_call {S} e.
Arguments ev_outcome {S} e.

Definition ev_raised {S} (ev : event S) : option exn := raised (ev_outcome ev).

Record execution (S : signature) (W A : Type) :=
  Execution { result : outcome A; final : W; trace : list (event S) }.
Arguments Execution {S W A} result final trace.
Arguments result {S W A} e.
Arguments final {S W A} e.
Arguments trace {S W A} e.

Fixpoint run {S W A} (h : handler S W) (p : py S A) (w : W) : execution S W A :=
  match p with
  | Return a => Execution (Returned a) w []
  | Raise e => Execution (Raised e) w []
  | Invoke c k =>
      let r := h c w in
      let ex := run h (k r.1) r.2 in
      Execution (result ex) (final ex) (Event c r.1 :: trace ex)
  end.

(** The calls of a run, in order. *)
Definition calls {S W A} (ex : execution S W A) : list (call S) := ev_call <$> trace ex.

(** A run fails only through its collaborators when the exception it ends
    with is the one its last collaborator call raised. *)
Definition fails_only_through_collaborators {S W A} (ex : execution S W A) : Prop :=
  match result ex with
  | Returned _ => True
  | Raised e => exists tr c, trace ex = tr ++ [Event c (Raised e)]
  end.

End Py.

(** ** src/pl_fairscale/precision/sharded_amp.py *)

Module sharded_amp.
Import Py.

(** [precision: Literal["16", 16, "bf16"]]: a string or an integer token. *)
Inductive precision_t :=
| PStr (s : string)
| PInt (n : Z).

(** The three tokens the annotation declares. *)
Definition Literal_16_16_bf16 (precision : precision_t) : Prop :=
  precision = PStr "16" \/ precision = PInt 16 \/ precision = PStr "bf16".

(** The tokens that select 16-bit floating point: ["16"] and [16]. *)
Definition resolves_to_16bit_float (precision : precision_t) : Prop :=
  precision = PStr "16" \/ precision = PInt 16.

(** [str(precision)]: a string is itself, an integer prints in decimal. *)
Definition str (precision : precision_t) : string :=
  match precision with
  | PStr s => s
  | PInt n => NilZero.string_of_int (Z.to_int n)
  end.

(** [clip_val: Union[int, float]]. *)
Inductive number :=
| Int (n : Z)
| Float (x : spec_float).

(** The collaborators of the module:
    - [ShardedGradScaler()] of fairscale.optim.grad_scaler,
    - [MixedPrecisionPlugin.__init__(self, precision, device, scaler=...)],
      the base class of pytorch_lightning, reached through [super()],
    - [optimizer.clip_grad_norm(clip_val)] of fairscale.optim.OSS. *)
Inductive amp_call :=
| ShardedGradScaler_new
| MixedPrecisionPlugin_init (self : ref) (precision : precision_t) (device : string)
    (scaler : option ref)
| OSS_clip_grad_norm (optimizer : ref) (clip_val : number).

Definition amp_reply (c : amp_call) : Type :=
  match c with
  | ShardedGradScaler_new => ref
  | MixedPrecisionPlugin_init _ _ _ _ => pyval
  | OSS_clip_grad_norm _ _ => pyval
  end.

Definition amp : signature := Signature amp_call amp_reply.

Definition is_None {A} (o : option A) : bool :=
  match o with
  | None => true
  | Some _ => false
  end.

(** The keyword argument of the base constructor:
    [ShardedGradScaler() if scaler is None and str(precision) == "16" else None]. *)
Definition scaler_argument (precision : precision_t) (scaler : option ref) : py amp (option ref) :=
  if is_None scaler && String.eqb (str precision) "16"
  then r ← invoke (S := amp) ShardedGradScaler_new; mret (Some r)
  else mret None.

(** [ShardedMixedPrecisionPlugin.__init__(self, precision, device, scaler=None)]. *)
Definition __init__ (self : ref) (precision : precision_t) (device : string)
    (scaler : option ref) : py amp pyval :=
  s ← scaler_argument precision scaler;
  _ ← invoke (S := amp) (MixedPrecisionPlugin_init self precision device s);
  mret PyNone.

(** [ShardedMixedPrecisionPlugin.clip_grad_by_norm(self, optimizer, clip_val)]. *)
Definition clip_grad_by_norm (self : ref) (optimizer : ref) (clip_val : number) : py amp pyval :=
  _ ← invoke (S := amp) (OSS_clip_grad_norm optimizer clip_val);
  mret PyNone.

(** *** Reading a run of the constructor *)

(** The scaler handed to the base constructor by an event, if the event is
    a call of the base constructor. *)
Definition forwarded_scaler (ev : event amp) : option (option ref) :=
  match ev_call ev with
  | MixedPrecisionPlugin_init _ _ _ scaler => Some scaler
  | _ => None
  end.

(** The scaler an event constructed, if it is a [ShardedGradScaler()] that
    returned. *)
Definition constructed_scaler (ev : event amp) : option ref :=
  match ev with
  | Event ShardedGradScaler_new (Returned r) => Some r
  | _ => None
  end.

Definition forwarded_scalers (tr : list (event amp)) : list (option ref) :=
  omap forwarded_scaler tr.

Definition constructed_scalers (tr : list (event amp)) : list ref :=
  omap constructed_scaler tr.

(** *** A heap and a collaborator to run the adapter on

    The theorems below hold for every collaborator.  To evaluate the adapter
    on concrete inputs one is fixed here: objects live in a heap, a grad
    scaler is allocated at a fresh address, the base constructor keeps what
    it is handed in attributes of [self], and the optimizer records the
    bound it was asked to clip to. *)

Record object := Object { class_ : string; attrs : gmap string pyval }.

Abbreviation heap := (gmap ref object).

Definition setattr (r : ref) (name : string) (v : pyval) (w : heap) : heap :=
  match w !! r with
  | Some o => <[r := Object (class_ o) (<[name := v]> (attrs o))]> w
  | None => w
  end.

Definition getattr (r : ref) (name : string) (w : heap) : option pyval :=
  o ← w !! r; attrs o !! name.

Definition of_optional (o : option ref) : pyval :=
  match o with
  | Some r => PyObj r
  | None => PyNone
  end.

Definition of_number (x : number) : pyval :=
  match x with
  | Int n => PyInt n
  | Float f => PyFloat f
  end.

Definition collaborators : handler amp heap := fun c =>
  match c with
  | ShardedGradScaler_new => fun w =>
      let r := fresh (dom w) in
      (Returned r, <[r := Object "ShardedGradScaler" ∅]> w)
  | MixedPrecisionPlugin_init self precision device scaler => fun w =>
      (Returned PyNone,
       setattr self "scaler" (of_optional scaler)
         (setattr self "device" (PyStr device)
            (setattr self "precision" (PyStr (str precision)) w)))
  | OSS_clip_grad_norm optimizer clip_val => fun w =>
      match w !! optimizer with
      | Some _ => (Returned PyNone, setattr optimizer "max_norm" (of_number clip_val) w)
      | None => (Raised (Exn "AttributeError" "clip_grad_norm"), w)
      end
  end.

(** A heap with a plugin object at 1, an optimizer at 2 and a grad scaler
    built by the caller at 3. *)
Definition heap0 : heap :=
  <[1%positive := Object "ShardedMixedPrecisionPlugin" ∅]>
    (<[2%positive := Object "OSS" ∅]>
       (<[3%positive := Object "ShardedGradScaler" ∅]> ∅)).

End sharded_amp.

(** ** tests/test_ddp_fully_sharded.py *)

Module test_ddp_fully_sharded.
Import Py.

(** The [torch.nn.Module] values the tests build and inspect.  A
    [FullyShardedDataParallel] carries the attributes the tests read:
    [module], [reshard_after_forward], [mixed_precision]. *)
#[warnings="-register-all"]
Inductive Module_ :=
| Linear (in_features out_features : nat)
| ReLU
| Sequential (modules : list Module_)
| FullyShardedDataParallel (module : Module_) (reshard_after_forward mixed_precision : bool).

(** [TestFSDPModelManualWrapped]: [self.layer: Optional[torch.nn.Module]]. *)
Record TestFSDPModelManualWrapped := Model { layer : option Module_ }.

(** The keyword arguments the tests pass to [Trainer(...)]. *)
Record TrainerArgs := {
  default_root_dir : string;
  strategy : ref;
  fast_dev_run : bool;
  accelerator : string;
  devices : Z;
  precision : ref;
  gradient_clip_val : Z;
  gradient_clip_algorithm : string;
  enable_progress_bar : bool;
  enable_model_summary : bool
}.

(** The collaborators of the tests:
    - [wrap(module)] of fairscale.nn,
    - [BoringModel.__init__], reached through [super()],
    - [DDPFullyShardedStrategy()] and [FullyShardedMixedPrecisionPlugin(precision=...)],
    - [Trainer(...)] and [trainer.fit(model)] of pytorch_lightning. *)
Inductive test_call :=
| wrap (module : Module_)
| BoringModel_init
| DDPFullyShardedStrategy_new
| FullyShardedMixedPrecisionPlugin_new (precision : sharded_amp.precision_t)
| Trainer_new (args : TrainerArgs)
| Trainer_fit (trainer : ref) (model : TestFSDPModelManualWrapped).

Definition test_reply (c : test_call) : Type :=
  match c with
  | wrap _ => Module_
  | BoringModel_init => pyval
  | DDPFullyShardedStrategy_new => ref
  | FullyShardedMixedPrecisionPlugin_new _ => ref
  | Trainer_new _ => ref
  | Trainer_fit _ _ => pyval
  end.

Definition test : signature := Signature test_call test_reply.

(** [TestFSDPModelManualWrapped.__init__]: the base constructor, then
    [self.layer = None]. *)
Definition __init__ : py test TestFSDPModelManualWrapped :=
  _ ← invoke (S := test) BoringModel_init;
  mret (Model None).

(** [_init_model]: [self.layer = Sequential(Linear(32, 32), ReLU(), Linear(32, 2))]. *)
Definition _init_model (self : TestFSDPModelManualWrapped) : TestFSDPModelManualWrapped :=
  Model (Some (Sequential [Linear 32 32; ReLU; Linear 32 2])).

(** [setup(stage)]: build the layer unless there is one. *)
Definition setup (self : TestFSDPModelManualWrapped) (stage : string) : TestFSDPModelManualWrapped :=
  match layer self with
  | None => _init_model self
  | Some _ => self
  end.

Definition isinstance_FullyShardedDataParallel (layer : option Module_) : bool :=
  match layer with
  | Some (FullyShardedDataParallel _ _ _) => true
  | _ => false
  end.

(** [type(x).__name__] of what [self.layer] can hold. *)
Definition type_name (layer : option Module_) : string :=
  match layer with
  | None => "NoneType"
  | Some (Linear _ _) => "Linear"
  | Some ReLU => "ReLU"
  | Some (Sequential _) => "Sequential"
  | Some (FullyShardedDataParallel _ _ _) => "FullyShardedDataParallel"
  end.

(** The loop of [configure_sharded_model] over the entries from index [i] on:
    [if i % 2 == 0: self.layer[i] = wrap(layer)]. *)
Fixpoint wrap_even (i : nat) (layers : list Module_) : py test (list Module_) :=
  match layers with
  | [] => mret []
  | layer :: rest =>
      layer' ← (if Nat.eqb (i mod 2) 0 then invoke (S := test) (wrap layer) else mret layer);
      rest' ← wrap_even (S i) rest;
      mret (layer' :: rest')
  end.

(** [configure_sharded_model]: the model after the call.  Iterating over a
    layer that is no [Sequential] raises [TypeError]. *)
Definition configure_sharded_model (self : TestFSDPModelManualWrapped)
  : py test TestFSDPModelManualWrapped :=
  if isinstance_FullyShardedDataParallel (layer self) then mret self
  else
    match layer self with
    | Some (Sequential layers) =>
        layers' ← wrap_even 0 layers;
        wrapped ← invoke (S := test) (wrap (Sequential layers'));
        mret (Model (Some wrapped))
    | other =>
        Raise (Exn "TypeError" ("'" ++ type_name other ++ "' object is not iterable"))
    end.

(** [re.search(pattern, s)] for a pattern without regular-expression
    operators: [pattern] occurs in [s]. *)
Fixpoint occurs (pattern s : string) : bool :=
  String.prefix pattern s ||
  match s with
  | EmptyString => false
  | String _ rest => occurs pattern rest
  end.

(** [isinstance(e, expected)] for an exception [e].  [mro] gives, for the
    name of a class, the names of the classes it derives from, as the
    interpreter with the framework loaded has them; an exception is an
    instance of its own class and of each of those. *)
Definition isinstance_exn (mro : string -> list string) (e : exn) (expected : string) : bool :=
  String.eqb expected (exn_class e) || existsb (String.eqb expected) (mro (exn_class e)).

(** [with pytest.raises(expected, match=pattern): body].  The block passes
    when [body] raises an instance of [expected] (of the class or of one
    derived from it) whose message matches; it fails when [body] returns or
    the message does not match; another exception propagates. *)
Definition pytest_raises {A} (mro : string -> list string) (expected pattern : string)
    (body : py test A) : py test pyval :=
  o ← try_ body;
  match o with
  | Returned _ => Raise (Exn "Failed" ("DID NOT RAISE " ++ expected))
  | Raised e =>
      if isinstance_exn mro e expected
      then if occurs pattern (exn_msg e) then mret PyNone
           else Raise (Exn "AssertionError" "Regex pattern did not match.")
      else Raise e
  end.

Definition norm_not_supported : string :=
  "gradient_clip_algorithm='norm'` is currently not supported for `FullySharded".

(** [test_fsdp_gradient_clipping_raises(tmpdir)], the body of the test (its
    markers skip it unless it is run standalone on a GPU). *)
Definition test_fsdp_gradient_clipping_raises (mro : string -> list string)
    (tmpdir : string) : py test pyval :=
  model ← __init__;
  strategy_ ← invoke (S := test) DDPFullyShardedStrategy_new;
  plugin ← invoke (S := test) (FullyShardedMixedPrecisionPlugin_new (sharded_amp.PInt 16));
  trainer ← invoke (S := test) (Trainer_new {|
    default_root_dir := tmpdir;
    strategy := strategy_;
    fast_dev_run := true;
    accelerator := "gpu";
    devices := 1;
    precision := plugin;
    gradient_clip_val := 1;
    gradient_clip_algorithm := "norm";
    enable_progress_bar := false;
    enable_model_summary := false |});
  pytest_raises mro "MisconfigurationException" norm_not_supported
    (invoke (S := test) (Trainer_fit trainer model)).

(** *** Frameworks to run the tests on

    The world of a framework: the next free address and the arguments each
    trainer was built with.  [fit] decides what [trainer.fit] does with
    them; [wrap] shards with the library's defaults. *)
Record world := World { next : ref; trainers : gmap ref TrainerArgs }.

Definition framework (fit : TrainerArgs -> outcome pyval) : handler test world := fun c =>
  match c with
  | wrap module => fun w => (Returned (FullyShardedDataParallel module true false), w)
  | BoringModel_init => fun w => (Returned PyNone, w)
  | DDPFullyShardedStrategy_new => fun w =>
      (Returned (next w), World (Pos.succ (next w)) (trainers w))
  | FullyShardedMixedPrecisionPlugin_new _ => fun w =>
      (Returned (next w), World (Pos.succ (next w)) (trainers w))
  | Trainer_new args => fun w =>
      (Returned (next w), World (Pos.succ (next w)) (<[next w := args]> (trainers w)))
  | Trainer_fit trainer _ => fun w =>
      match trainers w !! trainer with
      | Some args => (fit args, w)
      | None => (Raised (Exn "AttributeError" "fit"), w)
      end
  end.

Definition world0 : world := World 1 ∅.

(** Modelled from the spec: the gradient-clipping check made by
    [trainer.fit] with [FullyShardedMixedPrecisionPlugin]
    (pl_fairscale.precision), whose code is not among the sources at hand.
    In the spec's words, norm-based clipping with the sharded strategy is
    accepted, while value-based clipping is rejected with a configuration
    exception. *)
Definition fit_of_spec (args : TrainerArgs) : outcome pyval :=
  if String.eqb (gradient_clip_algorithm args) "value"
  then Raised (Exn "MisconfigurationException"
                 "`gradient_clip_algorithm='value'` is currently not supported for `FullyShardedMixedPrecisionPlugin`")
  else Returned PyNone.

(** The check the test expects of the framework: norm-based clipping is
    refused. *)
Definition fit_of_test (args : TrainerArgs) : outcome pyval :=
  if String.eqb (gradient_clip_algorithm args) "norm"
  then Raised (Exn "MisconfigurationException"
                 "`gradient_clip_algorithm='norm'` is currently not supported for `FullyShardedMixedPrecisionPlugin`")
  else Returned PyNone.

(** The classes of the exceptions above: each derives from [Exception];
    [GradientClippingError] stands for a class a framework derives from
    [MisconfigurationException]. *)
Definition exception_mro (cls : string) : list string :=
  if String.eqb cls "GradientClippingError"
  then ["MisconfigurationException"; "Exception"; "BaseException"; "object"]
  else ["Exception"; "BaseException"; "object"].

End test_ddp_fully_sharded.

(** ** tests/test_ddp_fully_sharded.py: the assertions and the stages *)

Module test_ddp_fully_sharded_stages.
Import Py test_ddp_fully_sharded.

(** Code that calls no collaborator returns or raises. *)
#[global] Instance outcome_ret : MRet outcome := fun A a => Returned a.
#[global] Instance outcome_bind : MBind outcome := fun A B f o =>
  match o with
  | Returned a => f a
  | Raised e => Raised e
  end.

(** [assert b]. *)
Definition assert_ (b : bool) : outcome pyval :=
  if b then Returned PyNone else Raised (Exn "AssertionError" "").

(** [TestFSDPModelManualWrapped.on_load_checkpoint(checkpoint)]:
    [self._init_model()], whatever the checkpoint holds. *)
Definition on_load_checkpoint (self : TestFSDPModelManualWrapped)
    (checkpoint : gmap string pyval) : TestFSDPModelManualWrapped :=
  _init_model self.

(** [x.module], [x.reshard_after_forward], [x.mixed_precision]: the
    attributes of a [FullyShardedDataParallel]; the other modules have none
    of them. *)
Definition fsdp_attributes (x : Module_) (attribute : string) : outcome (Module_ * bool * bool) :=
  match x with
  | FullyShardedDataParallel module reshard_after_forward mixed_precision =>
      Returned (module, reshard_after_forward, mixed_precision)
  | other =>
      Raised (Exn "AttributeError"
                ("'" ++ type_name (Some other) ++ "' object has no attribute '" ++ attribute ++ "'"))
  end.

(** [x.module[i]] for a sharded wrapper [x] of the module given here: the
    wrapper forwards the index to the [__getitem__] of what it wraps, which
    a [Sequential] has and a single layer has not. *)
Fixpoint getitem (x : Module_) (i : nat) : outcome Module_ :=
  match x with
  | Sequential modules =>
      match modules !! i with
      | Some entry => Returned entry
      | None =>
          Raised (Exn "IndexError"
                    ("index " ++ NilZero.string_of_uint (Nat.to_uint i) ++ " is out of range"))
      end
  | FullyShardedDataParallel module _ _ => getitem module i
  | other =>
      Raised (Exn "AttributeError"
                ("'" ++ type_name (Some other) ++ "' object has no attribute '__getitem__'"))
  end.

Definition isinstance_FSDP (x : Module_) : bool :=
  isinstance_FullyShardedDataParallel (Some x).

(** [TestFSDPModelManualWrapped._assert_layer_fsdp_instance].
    [fully_sharded_precision] is the value of
    [isinstance(self.trainer.precision_plugin, FullyShardedMixedPrecisionPlugin)]. *)
Definition _assert_layer_fsdp_instance (self : TestFSDPModelManualWrapped)
    (fully_sharded_precision : bool) : outcome pyval :=
  _ ← assert_ (isinstance_FullyShardedDataParallel (layer self));
  match layer self with
  | None => Raised (Exn "AttributeError" "'NoneType' object has no attribute 'module'")
  | Some root =>
      '(module, _, mixed_precision) ← fsdp_attributes root "module";
      entry0 ← getitem module 0;
      _ ← assert_ (isinstance_FSDP entry0);
      entry2 ← getitem module 2;
      _ ← assert_ (isinstance_FSDP entry2);
      '(_, reshard0, mixed0) ← fsdp_attributes entry0 "reshard_after_forward";
      _ ← assert_ reshard0;
      '(_, reshard2, mixed2) ← fsdp_attributes entry2 "reshard_after_forward";
      _ ← assert_ reshard2;
      if fully_sharded_precision
      then
        _ ← assert_ mixed_precision;
        _ ← assert_ mixed0;
        assert_ mixed2
      else Returned PyNone
  end.

(** The entries of [layers] that [configure_sharded_model] hands to [wrap],
    [layers] starting at index [i]: those at the even indices. *)
Fixpoint even_entries (i : nat) (layers : list Module_) : list Module_ :=
  match layers with
  | [] => []
  | layer :: rest =>
      if Nat.eqb (i mod 2) 0 then layer :: even_entries (S i) rest
      else even_entries (S i) rest
  end.

(** What a [wrap] that returned gave back. *)
Definition wrapped_reply (ev : event test) : option Module_ :=
  match ev with
  | Event (wrap _) (Returned wrapped) => Some wrapped
  | _ => None
  end.

(** *** The stages *)

(** The class of a model object, as [model.__class__]. *)
Inductive model_class :=
| ManualWrapped
| AutoWrapped
| OtherModel (name : string).

(** A model object: its class and its identity. *)
Record model_obj := ModelObj { class_of : model_class; address : ref }.

(** A state dict: the parameter names with their tensors, in order. *)
Abbreviation state_dict_t := (list (string * ref)).

Definition values (d : state_dict_t) : list ref := d.*2.

(** The collaborators of the stages:
    - [trainer.fit(model)], [trainer.test(model, ckpt_path=...)],
      [trainer.predict(model, ckpt_path=...)],
      [trainer.save_checkpoint(path, weights_only=...)],
      [trainer.checkpoint_callback.last_model_path], [trainer.is_global_zero],
      [trainer.strategy.lightning_module_state_dict()],
    - [cls.load_from_checkpoint(path)], [model.state_dict()],
    - [tensor.float()], [tensor.cpu()], [torch.equal(a, b)],
    - [TestFSDPModelAutoWrapped()]. *)
Inductive stage_call :=
| trainer_fit (trainer model : ref)
| checkpoint_callback_last_model_path (trainer : ref)
| trainer_save_checkpoint (trainer : ref) (path : string) (weights_only : bool)
| strategy_lightning_module_state_dict (trainer : ref)
| trainer_is_global_zero (trainer : ref)
| load_from_checkpoint (cls : model_class) (path : string)
| model_state_dict (model : ref)
| tensor_float (tensor : ref)
| tensor_cpu (tensor : ref)
| torch_equal (a b : ref)
| TestFSDPModelAutoWrapped_new
| trainer_test (trainer model : ref) (ckpt_path : option string)
| trainer_predict (trainer model : ref) (ckpt_path : option string).

Definition stage_reply (c : stage_call) : Type :=
  match c with
  | trainer_fit _ _ => pyval
  | checkpoint_callback_last_model_path _ => string
  | trainer_save_checkpoint _ _ _ => pyval
  | strategy_lightning_module_state_dict _ => state_dict_t
  | trainer_is_global_zero _ => bool
  | load_from_checkpoint _ _ => ref
  | model_state_dict _ => state_dict_t
  | tensor_float _ => ref
  | tensor_cpu _ => ref
  | torch_equal _ _ => bool
  | TestFSDPModelAutoWrapped_new => ref
  | trainer_test _ _ _ => pyval
  | trainer_predict _ _ _ => pyval
  end.

Definition stages : signature := Signature stage_call stage_reply.

(** The loop of [_assert_save_equality]:
    [assert torch.equal(ddp_param.float().cpu(), shard_param)] for each pair. *)
Fixpoint assert_params_equal (pairs : list (ref * ref)) : py stages pyval :=
  match pairs with
  | [] => mret PyNone
  | (ddp_param, shard_param) :: rest =>
      as_float ← invoke (S := stages) (tensor_float ddp_param);
      on_cpu ← invoke (S := stages) (tensor_cpu as_float);
      same ← invoke (S := stages) (torch_equal on_cpu shard_param);
      if same : bool then assert_params_equal rest
      else Raise (Exn "AssertionError" "")
  end.

(** [zip(a, b)]: pairs up to the end of the shorter list. *)
Fixpoint zip_ {A B} (a : list A) (b : list B) : list (A * B) :=
  match a, b with
  | x :: a', y :: b' => (x, y) :: zip_ a' b'
  | _, _ => []
  end.

(** [_assert_save_equality(trainer, ckpt_path, cls)]. *)
Definition _assert_save_equality (trainer : ref) (ckpt_path : string) (cls : model_class)
  : py stages pyval :=
  model_state_dict_ ← invoke (S := stages) (strategy_lightning_module_state_dict trainer);
  is_global_zero ← invoke (S := stages) (trainer_is_global_zero trainer);
  if is_global_zero : bool
  then
    saved_model ← invoke (S := stages) (load_from_checkpoint cls ckpt_path);
    saved_state ← invoke (S := stages) (model_state_dict saved_model);
    assert_params_equal (zip_ (values model_state_dict_) (values saved_state))
  else mret PyNone.

(** The truth value of [model_path: Optional[str]]. *)
Definition truthy (model_path : option string) : option string :=
  match model_path with
  | Some path => if String.eqb path "" then None else Some path
  | None => None
  end.

(** [if model.__class__ is TestFSDPModelAutoWrapped:
       model = TestFSDPModelAutoWrapped()]. *)
Definition renew (model : model_obj) : py stages model_obj :=
  match class_of model with
  | AutoWrapped =>
      r ← invoke (S := stages) TestFSDPModelAutoWrapped_new;
      mret (ModelObj AutoWrapped r)
  | _ => mret model
  end.

(** [_run_multiple_stages(trainer, model, model_path)]. *)
Definition _run_multiple_stages (trainer : ref) (model : model_obj)
    (model_path : option string) : py stages pyval :=
  _ ← invoke (S := stages) (trainer_fit trainer (address model));
  model_path ← match truthy model_path with
               | Some path => mret path
               | None => invoke (S := stages) (checkpoint_callback_last_model_path trainer)
               end;
  _ ← invoke (S := stages) (trainer_save_checkpoint trainer model_path true);
  _ ← _assert_save_equality trainer model_path (class_of model);
  model ← renew model;
  _ ← invoke (S := stages) (trainer_test trainer (address model) None);
  model ← renew model;
  _ ← invoke (S := stages) (trainer_test trainer (address model) (Some model_path));
  model ← renew model;
  model ← renew model;
  _ ← invoke (S := stages) (trainer_predict trainer (address model) None);
  model ← renew model;
  _ ← invoke (S := stages) (trainer_predict trainer (address model) (Some model_path));
  mret PyNone.

(** *** Reading a run of the stages *)

(** What a run of the stages did with models and checkpoints. *)
Inductive milestone :=
| Fitted (model : ref)
| Saved (path : string)
| Loaded (cls : model_class) (path : string)
| Built (model : ref)
| Tested (model : ref) (ckpt_path : option string)
| Predicted (model : ref) (ckpt_path : option string).

Definition milestone_of (ev : event stages) : option milestone :=
  match ev with
  | Event (trainer_fit _ model) _ => Some (Fitted model)
  | Event (trainer_save_checkpoint _ path _) _ => Some (Saved path)
  | Event (load_from_checkpoint cls path) _ => Some (Loaded cls path)
  | Event TestFSDPModelAutoWrapped_new (Returned model) => Some (Built model)
  | Event (trainer_test _ model ckpt_path) _ => Some (Tested model ckpt_path)
  | Event (trainer_predict _ model ckpt_path) _ => Some (Predicted model ckpt_path)
  | _ => None
  end.

Definition milestones (tr : list (event stages)) : list milestone := omap milestone_of tr.

(** The events of one passing comparison: the parameter [ddp_param] is
    converted to [as_float], moved to [on_cpu] and found equal to
    [shard_param]. *)
Definition comparison (params : ref * ref) (copies : ref * ref) : list (event stages) :=
  [Event (S := stages) (tensor_float params.1) (Returned copies.1);
   Event (S := stages) (tensor_cpu copies.1) (Returned copies.2);
   Event (S := stages) (torch_equal copies.2 params.2) (Returned true)].

Fixpoint comparisons (pairs copies : list (ref * ref)) : list (event stages) :=
  match pairs, copies with
  | params :: pairs', made :: copies' => comparison params made ++ comparisons pairs' copies'
  | _, _ => []
  end.

(** *** A framework to run the stages on

    Tensors are lists of integers held by reference; a checkpoint keeps the
    state dict it was saved from; [float] and [cpu] return the tensor they
    are given; [torch.equal] compares contents. *)
Record stage_world := StageWorld {
  free : ref;
  global_zero : bool;
  module_params : state_dict_t;
  checkpoints : gmap string state_dict_t;
  loaded_models : gmap ref state_dict_t;
  tensors : gmap ref (list Z)
}.

Definition stage_framework : handler stages stage_world := fun c =>
  match c with
  | trainer_fit _ _ => fun w => (Returned PyNone, w)
  | checkpoint_callback_last_model_path _ => fun w => (Returned "epoch=0.ckpt", w)
  | trainer_save_checkpoint _ path _ => fun w =>
      (Returned PyNone,
       StageWorld (free w) (global_zero w) (module_params w)
         (<[path := module_params w]> (checkpoints w)) (loaded_models w) (tensors w))
  | strategy_lightning_module_state_dict _ => fun w => (Returned (module_params w), w)
  | trainer_is_global_zero _ => fun w => (Returned (global_zero w), w)
  | load_from_checkpoint _ path => fun w =>
      match checkpoints w !! path with
      | Some saved =>
          (Returned (free w),
           StageWorld (Pos.succ (free w)) (global_zero w) (module_params w)
             (checkpoints w) (<[free w := saved]> (loaded_models w)) (tensors w))
      | None => (Raised (Exn "FileNotFoundError" path), w)
      end
  | model_state_dict model => fun w => (Returned (default [] (loaded_models w !! model)), w)
  | tensor_float tensor => fun w => (Returned tensor, w)
  | tensor_cpu tensor => fun w => (Returned tensor, w)
  | torch_equal a b => fun w => (Returned (bool_decide (tensors w !! a = tensors w !! b)), w)
  | TestFSDPModelAutoWrapped_new => fun w =>
      (Returned (free w),
       StageWorld (Pos.succ (free w)) (global_zero w) (module_params w)
         (checkpoints w) (loaded_models w) (tensors w))
  | trainer_test _ _ _ => fun w => (Returned PyNone, w)
  | trainer_predict _ _ _ => fun w => (Returned PyNone, w)
  end.

(** A process of rank [zero] with a trainer at 1, a model at 2, two
    parameters held at 10 and 11, and a stale checkpoint "stale.ckpt" whose
    second parameter, at 12, differs. *)
Definition stage_world0 (zero : bool) : stage_world :=
  StageWorld 20 zero [("layer.0.weight", 10%positive); ("layer.2.weight", 11%positive)]
    {[ "stale.ckpt" := [("layer.0.weight", 10%positive); ("layer.2.weight", 12%positive)] ]}
    ∅
    (<[10%positive := [1; 2]%Z]> (<[11%positive := [3]%Z]> (<[12%positive := [4]%Z]> ∅))).

End test_ddp_fully_sharded_stages.

(** ** A collaborator that cannot build a grad scaler *)

Module sharded_amp_scenarios.
Import Py sharded_amp.

(** As [collaborators], but [ShardedGradScaler()] raises. *)
Definition collaborators_without_scaler : handler amp heap := fun c =>
  match c with
  | ShardedGradScaler_new => fun w => (Raised (Exn "RuntimeError" "CUDA error"), w)
  | other => collaborators other
  end.

(** The base constructor as pytorch_lightning has it (the library is not
    part of the repository): it keeps [str(precision)] and the device,
    builds a [torch.cuda.amp.GradScaler] of its own when it is handed no
    scaler at precision "16", refuses a scaler at precision "bf16", and
    keeps the scaler it ends up with. *)
Definition MixedPrecisionPlugin___init__ (self : ref) (precision : precision_t)
    (device : string) (scaler : option ref) (w : heap) : outcome pyval * heap :=
  let w1 := setattr self "precision" (PyStr (str precision)) w in
  let own := is_None scaler && String.eqb (str precision) "16" in
  let r := fresh (dom w1) in
  let w2 := if own then <[r := Object "GradScaler" ∅]> w1 else w1 in
  let scaler' := if own then Some r else scaler in
  if negb (is_None scaler') && String.eqb (str precision) "bf16"
  then (Raised (Exn "MisconfigurationException" "`precision='bf16'` does not use a scaler"),
        w2)
  else (Returned PyNone,
        setattr self "scaler" (of_optional scaler') (setattr self "device" (PyStr device) w2)).

(** As [collaborators], with that base constructor. *)
Definition lightning_collaborators : handler amp heap := fun c =>
  match c with
  | MixedPrecisionPlugin_init self precision device scaler =>
      MixedPrecisionPlugin___init__ self precision device scaler
  | other => collaborators other
  end.

End sharded_amp_scenarios.

(** ** Runs of call trees *)

Module Py_facts.
Import Py.

Section runs.
Context {S : signature} {W : Type}.
Implicit Types h : handler S W.

Lemma run_ret {A} h (a : A) w : run h (mret a) w = Execution (Returned a) w [].
Proof. reflexivity. Qed.

Lemma run_invoke h (c : call S) w :
  run h (invoke c) w = Execution (h c w).1 (h c w).2 [Event c (h c w).1].
Proof. unfold invoke. simpl. destruct (h c w) as [[x | e] w']; reflexivity. Qed.

(** Sequencing: the second part runs in the world the first one left, and
    only if the first one returned. *)
Lemma run_bind {A B} h (p : py S A) (f : A -> py S B) w :
  run h (p ≫= f) w =
  match result (run h p w) with
  | Returned a =>
      let ex := run h (f a) (final (run h p w)) in
      Execution (result ex) (final ex) (trace (run h p w) ++ trace ex)
  | Raised e => Execution (Raised e) (final (run h p w)) (trace (run h p w))
  end.
Proof.
  unfold mbind, py_bind. revert w.
  induction p as [a | e | c k IH]; intros w; simpl.
  - destruct (run h (f a) w); reflexivity.
  - reflexivity.
  - rewrite IH. destruct (result (run h (k (h c w).1) (h c w).2)); reflexivity.
Qed.

Lemma run_try {A} h (p : py S A) w :
  run h (try_ p) w =
  Execution (Returned (result (run h p w))) (final (run h p w)) (trace (run h p w)).
Proof.
  revert w. induction p as [a | e | c k IH]; intros w; simpl; try reflexivity.
  rewrite IH. reflexivity.
Qed.

(** A tree that only returns, calls and sequences fails only through its
    collaborators. *)
Lemma ret_fails_only_through_collaborators {A} h (a : A) w :
  fails_only_through_collaborators (run h (mret a) w).
Proof. exact I. Qed.

Lemma invoke_fails_only_through_collaborators h (c : call S) w :
  fails_only_through_collaborators (run h (invoke c) w).
Proof.
  rewrite run_invoke. unfold fails_only_through_collaborators. simpl.
  destruct (h c w).1 as [x | e]; [exact I |].
  exists [], c. reflexivity.
Qed.

Lemma bind_fails_only_through_collaborators {A B} h (p : py S A) (f : A -> py S B) w :
  fails_only_through_collaborators (run h p w) ->
  (forall a w', fails_only_through_collaborators (run h (f a) w')) ->
  fails_only_through_collaborators (run h (p ≫= f) w).
Proof.
  intros Hp Hf. rewrite run_bind. unfold fails_only_through_collaborators in *.
  destruct (result (run h p w)) as [a | e] eqn:Hr; simpl.
  - specialize (Hf a (final (run h p w))).
    destruct (result (run h (f a) (final (run h p w)))) as [b | e]; [exact I |].
    destruct Hf as (tr & c & Htr). exists (trace (run h p w) ++ tr), c.
    rewrite Htr. apply app_assoc.
  - exact Hp.
Qed.

End runs.

End Py_facts.

(** ** The precision adapter *)

Module sharded_amp_proofs.
Import Py Py_facts sharded_amp.

(** [str(n)] is ["16"] for the integer 16 only. *)
Lemma str_int_16 (n : Z) : NilZero.string_of_int (Z.to_int n) = "16" -> n = 16%Z.
Proof.
  intros H.
  assert (Hd : Z.to_int n = Pos (D1 (D6 Nil))).
  { destruct (Decimal.int_eq_dec (Z.to_int n) (Pos Nil)) as [E | Hp];
      [rewrite E in H; discriminate H |].
    destruct (Decimal.int_eq_dec (Z.to_int n) (Neg Nil)) as [E | Hn];
      [rewrite E in H; discriminate H |].
    pose proof (NilZero.isi _ Hp Hn) as Hi. rewrite H in Hi.
    change (NilZero.int_of_string "16") with (Some (Pos (D1 (D6 Nil)))) in Hi.
    congruence. }
  rewrite <- (DecimalZ.of_to n), Hd. reflexivity.
Qed.

(** [str(precision) == "16"] holds for the tokens ["16"] and [16] only. *)
Lemma str_16 (precision : precision_t) :
  String.eqb (str precision) "16" = true <-> resolves_to_16bit_float precision.
Proof.
  unfold resolves_to_16bit_float. rewrite String.eqb_eq. split.
  - destruct precision as [s | n]; simpl; intros H.
    + left. congruence.
    + right. f_equal. apply str_int_16, H.
  - intros [-> | ->]; reflexivity.
Qed.

(** On the declared tokens [str] gives "16" or "bf16". *)
Lemma str_declared (precision : precision_t) :
  Literal_16_16_bf16 precision -> str precision = "16" \/ str precision = "bf16".
Proof. intros [-> | [-> | ->]]; simpl; auto. Qed.

Section runs.
Context {W : Type}.
Implicit Types (h : handler amp W) (self optimizer : ref) (precision : precision_t).
Implicit Types (device : string) (scaler : option ref) (clip_val : number).

(** A constructor run, call by call. *)
Lemma run_init h w self precision device scaler :
  run h (__init__ self precision device scaler) w =
  if is_None scaler && String.eqb (str precision) "16"
  then
    let new := h ShardedGradScaler_new w in
    match new.1 with
    | Returned r =>
        let base := h (MixedPrecisionPlugin_init self precision device (Some r)) new.2 in
        Execution (outcome_map (fun _ => PyNone) base.1) base.2
          [Event (S := amp) ShardedGradScaler_new (Returned r);
           Event (S := amp) (MixedPrecisionPlugin_init self precision device (Some r)) base.1]
    | Raised e =>
        Execution (Raised e) new.2 [Event (S := amp) ShardedGradScaler_new (Raised e)]
    end
  else
    let base := h (MixedPrecisionPlugin_init self precision device None) w in
    Execution (outcome_map (fun _ => PyNone) base.1) base.2
      [Event (S := amp) (MixedPrecisionPlugin_init self precision device None) base.1].
Proof.
  unfold __init__, scaler_argument.
  destruct (is_None scaler && String.eqb (str precision) "16"); simpl.
  - destruct (h ShardedGradScaler_new w) as [[r | e] w1]; simpl; [| reflexivity].
    destruct (h (MixedPrecisionPlugin_init _ _ _ _) _) as [[v | e] w2]; reflexivity.
  - destruct (h (MixedPrecisionPlugin_init _ _ _ _) _) as [[v | e] w1]; reflexivity.
Qed.

(** A run of the clipping method: the one call, and nothing else. *)
Lemma run_clip_grad_by_norm h w self optimizer clip_val :
  let clip := h (OSS_clip_grad_norm optimizer clip_val) w in
  run h (clip_grad_by_norm self optimizer clip_val) w =
  Execution (outcome_map (fun _ => PyNone) clip.1) clip.2
    [Event (S := amp) (OSS_clip_grad_norm optimizer clip_val) clip.1].
Proof.
  unfold clip_grad_by_norm. simpl.
  destruct (h (OSS_clip_grad_norm _ _) _) as [[v | e] w1]; reflexivity.
Qed.

(** The base constructor is called at most once; it is called when the
    grad scaler, if one is built, is built without an exception. *)
Lemma base_constructor_reached h w self precision device scaler :
  (forall e, (h ShardedGradScaler_new w).1 <> Raised e) ->
  exists s, forwarded_scalers (trace (run h (__init__ self precision device scaler) w)) = [s].
Proof.
  intros Hnew. rewrite run_init.
  destruct (is_None scaler && String.eqb (str precision) "16"); simpl.
  - destruct (h ShardedGradScaler_new w) as [[r | e] w1]; simpl in *.
    + eexists. reflexivity.
    + destruct (Hnew e). reflexivity.
  - eexists. reflexivity.
Qed.

End runs.

(** *** The collaborator fixed for concrete runs *)

Lemma setattr_other (r r' : ref) (name : string) (v : pyval) (w : heap) :
  r' <> r -> setattr r name v w !! r' = w !! r'.
Proof.
  intros Hne. unfold setattr. destruct (w !! r); [| reflexivity].
  apply lookup_insert_ne. congruence.
Qed.

(** Its [ShardedGradScaler()] allocates at an address that was free and
    touches no other object. *)
Lemma collaborators_allocate_fresh (w : heap) :
  let new := collaborators ShardedGradScaler_new w in
  exists r, new.1 = Returned r /\ w !! r = None /\
    new.2 !! r = Some (Object "ShardedGradScaler" ∅) /\
    forall r', r' <> r -> new.2 !! r' = w !! r'.
Proof.
  simpl. exists (fresh (dom w)). split; [reflexivity |]. split; [| split].
  - apply not_elem_of_dom, is_fresh.
  - apply lookup_insert_eq.
  - intros r' Hne. apply lookup_insert_ne. congruence.
Qed.

(** Its optimizer touches the optimizer object only. *)
Lemma collaborators_clip_frame (w : heap) (self optimizer : ref) (clip_val : number) :
  self <> optimizer ->
  (collaborators (OSS_clip_grad_norm optimizer clip_val) w).2 !! self = w !! self.
Proof.
  intros Hne. simpl. destruct (w !! optimizer) eqn:E; simpl; [| reflexivity].
  apply setattr_other, Hne.
Qed.

Section claims.
Context {W : Type}.
Implicit Types (h : handler amp W) (self optimizer : ref) (precision : precision_t).
Implicit Types (device : string) (scaler : option ref) (clip_val : number).

(** C1, where the code departs from the claim.  The constructor is given
    precision 16, device "cuda" and a grad scaler the caller built (the
    object at address 3).  Whatever the collaborators do, its one call is
    the base constructor with [scaler=None]: the supplied scaler is handed
    to nobody, and no sharded scaler is built in its place. *)
Theorem supplied_scaler_is_dropped h w :
  let ex := run h (__init__ 1 (PInt 16) "cuda" (Some 3%positive)) w in
  calls ex = [MixedPrecisionPlugin_init 1 (PInt 16) "cuda" None] /\
  forwarded_scalers (trace ex) = [None] /\
  constructed_scalers (trace ex) = [].
Proof. rewrite run_init. simpl. repeat split. Qed.


(** C3.  With precision "bf16" and no scaler supplied the base constructor
    is handed [None], for every device, and no grad scaler is built. *)
Theorem bf16_holds_no_scaler h w self device :
  let ex := run h (__init__ self (PStr "bf16") device None) w in
  forwarded_scalers (trace ex) = [None] /\ constructed_scalers (trace ex) = [].
Proof. rewrite run_init. simpl. split; reflexivity. Qed.

(** C4.  For every optimizer and every bound, integer or float, the
    collaborator calls of [clip_grad_by_norm] are the single call
    [optimizer.clip_grad_norm(clip_val)], with the bound as it was given. *)
Theorem clip_grad_by_norm_delegates_once h w self optimizer clip_val :
  calls (run h (clip_grad_by_norm self optimizer clip_val) w) =
  [OSS_clip_grad_norm optimizer clip_val].
Proof. rewrite run_clip_grad_by_norm. reflexivity. Qed.

(** C8.  For every precision (the declared tokens among them), device and
    scaler argument, a construction that ends with an exception ends with
    the one its last collaborator call raised; and so does a call of
    [clip_grad_by_norm].  The adapter has no failure of its own. *)
Theorem adapter_fails_only_through_collaborators
    h w self precision device scaler optimizer clip_val :
  fails_only_through_collaborators (run h (__init__ self precision device scaler) w) /\
  fails_only_through_collaborators (run h (clip_grad_by_norm self optimizer clip_val) w).
Proof.
  split.
  - unfold __init__, scaler_argument.
    apply bind_fails_only_through_collaborators.
    + destruct (is_None scaler && String.eqb (str precision) "16").
      * apply bind_fails_only_through_collaborators.
        -- apply invoke_fails_only_through_collaborators.
        -- intros; apply ret_fails_only_through_collaborators.
      * apply ret_fails_only_through_collaborators.
    + intros s w'. apply bind_fails_only_through_collaborators.
      * apply invoke_fails_only_through_collaborators.
      * intros; apply ret_fails_only_through_collaborators.
  - unfold clip_grad_by_norm. apply bind_fails_only_through_collaborators.
    + apply invoke_fails_only_through_collaborators.
    + intros; apply ret_fails_only_through_collaborators.
Qed.

(** C9.  Whatever the arguments, a scaler handed to the base constructor is
    [None] or an object that [ShardedGradScaler()], called without
    arguments, returned during this construction; and when the caller
    supplies a scaler [x], the base constructor is handed [None], not [x],
    and no scaler is built. *)
Theorem forwarded_scaler_is_fresh_or_None h w self precision device :
  (forall scaler,
     let ex := run h (__init__ self precision device scaler) w in
     forwarded_scalers (trace ex) ⊆ None :: (Some <$> constructed_scalers (trace ex))) /\
  (forall x : ref,
     let ex := run h (__init__ self precision device (Some x)) w in
     forwarded_scalers (trace ex) = [None] /\ constructed_scalers (trace ex) = []).
Proof.
  split.
  - intros scaler. rewrite run_init.
    destruct (is_None scaler && String.eqb (str precision) "16"); simpl.
    + destruct (h ShardedGradScaler_new w) as [[r | e] w1]; simpl;
        intros y Hy; apply list_elem_of_further, Hy.
    + intros y Hy. apply list_elem_of_singleton in Hy as ->. apply list_elem_of_here.
  - intros x. rewrite run_init. simpl. split; reflexivity.
Qed.

End claims.

(** C10.  The world here is the heap, and the optimizer's own clipping is
    assumed to leave the plugin object alone.  Then [clip_grad_by_norm]
    leaves the plugin object as it was, attribute by attribute; it returns
    [None] when the optimizer's call returns; the heap it leaves is the one
    that single call left; and the method does not depend on [self]. *)
Theorem clip_grad_by_norm_frame (h : handler amp heap) (w : heap)
    (self optimizer : ref) (clip_val : number) :
  (h (OSS_clip_grad_norm optimizer clip_val) w).2 !! self = w !! self ->
  let ex := run h (clip_grad_by_norm self optimizer clip_val) w in
  final ex !! self = w !! self /\
  (forall name, getattr self name (final ex) = getattr self name w) /\
  result ex = outcome_map (fun _ => PyNone) (h (OSS_clip_grad_norm optimizer clip_val) w).1 /\
  final ex = (h (OSS_clip_grad_norm optimizer clip_val) w).2 /\
  calls ex = [OSS_clip_grad_norm optimizer clip_val] /\
  (forall self', clip_grad_by_norm self' optimizer clip_val =
                 clip_grad_by_norm self optimizer clip_val).
Proof.
  intros Hframe ex. subst ex. rewrite run_clip_grad_by_norm.
  destruct (h (OSS_clip_grad_norm _ _) _) as [o w1]. simpl in *.
  repeat split; try assumption.
  intros name. unfold getattr. rewrite Hframe. reflexivity.
Qed.

(** *** The theorems at concrete inputs *)



(** On the same base constructor, precision "16" without a scaler leaves
    the plugin holding the sharded scaler built for it. *)
Example held_scaler_without_scaler_supplied :
  let ex := run sharded_amp_scenarios.lightning_collaborators
              (__init__ 1 (PStr "16") "cuda" None) heap0 in
  result ex = Returned PyNone /\
  getattr 1 "scaler" (final ex) = Some (PyObj 4) /\
  class_ <$> final ex !! 4%positive = Some "ShardedGradScaler".
Proof. vm_compute. repeat split. Qed.

Lemma clip_grad_by_norm_frame_witness :
  (collaborators (OSS_clip_grad_norm 2 (Int 1)) heap0).2 !! 1%positive = heap0 !! 1%positive /\
  final (run collaborators (clip_grad_by_norm 1 2 (Int 1)) heap0) !! 1%positive
    = heap0 !! 1%positive /\
  result (run collaborators (clip_grad_by_norm 1 2 (Int 1)) heap0) = Returned PyNone.
Proof.
  assert (H : (collaborators (OSS_clip_grad_norm 2 (Int 1)) heap0).2 !! 1%positive
              = heap0 !! 1%positive) by (vm_compute; reflexivity).
  split; [exact H |].
  destruct (clip_grad_by_norm_frame collaborators heap0 1 2 (Int 1) H) as (Hself & _ & Hres & _).
  split; [exact Hself | exact Hres].
Defined.

(** The collaborator fixed above allocates the grad scaler at an address
    that was free, and the base constructor stores it on the plugin. *)
Example init_16_on_heap0 :
  let ex := run collaborators (__init__ 1 (PInt 16) "cuda" None) heap0 in
  result ex = Returned PyNone /\ heap0 !! 4%positive = None /\
  getattr 1 "scaler" (final ex) = Some (PyObj 4) /\
  class_ <$> final ex !! 4%positive = Some "ShardedGradScaler".
Proof. vm_compute. repeat split. Qed.

(** With a scaler supplied (the object at 3), the plugin is left without one. *)
Example init_16_with_scaler_on_heap0 :
  let ex := run collaborators (__init__ 1 (PInt 16) "cuda" (Some 3%positive)) heap0 in
  result ex = Returned PyNone /\ getattr 1 "scaler" (final ex) = Some PyNone.
Proof. vm_compute. repeat split. Qed.

End sharded_amp_proofs.

(** ** The strategy tests *)

Module test_ddp_fully_sharded_proofs.
Import Py Py_facts test_ddp_fully_sharded.

Section claims.
Context {W : Type}.
Implicit Types (h : handler test W) (self : TestFSDPModelManualWrapped).

(** C7.  When [self.layer] already is a [FullyShardedDataParallel],
    [configure_sharded_model] returns at once: [wrap] is not called (no
    collaborator is), and the model, its layer included, is as it was. *)
Theorem configure_sharded_model_keeps_wrapped h w self :
  isinstance_FullyShardedDataParallel (layer self) = true ->
  run h (configure_sharded_model self) w = Execution (Returned self) w [].
Proof. intros Hwrapped. unfold configure_sharded_model. rewrite Hwrapped. reflexivity. Qed.

(** X6.  Configuring twice is configuring once, as long as [wrap] shards
    what it is given (as it does inside the strategy's wrapping context). *)
Lemma configure_sharded_model_idempotent h w self self' :
  (forall module w',
     match (h (wrap module) w').1 with
     | Returned wrapped => isinstance_FullyShardedDataParallel (Some wrapped) = true
     | Raised _ => True
     end) ->
  result (run h (configure_sharded_model self) w) = Returned self' ->
  run h (configure_sharded_model self')
      (final (run h (configure_sharded_model self) w)) =
  Execution (Returned self') (final (run h (configure_sharded_model self) w)) [].
Proof.
  intros Hwrap Hrun.
  assert (Hwrapped : isinstance_FullyShardedDataParallel (layer self') = true).
  { revert Hrun. unfold configure_sharded_model.
    destruct (isinstance_FullyShardedDataParallel (layer self)) eqn:Hself.
    - simpl. intros [= <-]. exact Hself.
    - destruct (layer self) as [[i o | | layers | m r mp] |]; try (simpl; discriminate).
      cbv beta iota. rewrite run_bind.
      destruct (result (run h (wrap_even 0 layers) w)) as [layers' | e]; [| intros [=]].
      simpl. specialize (Hwrap (Sequential layers') (final (run h (wrap_even 0 layers) w))).
      destruct (h (wrap _) _) as [[wrapped | e] w1]; simpl in *; [| intros [=]].
      intros [= <-]. exact Hwrap. }
  unfold configure_sharded_model at 1. rewrite Hwrapped. reflexivity.
Qed.

(** What a passing test requires.  Whatever the framework, if
    [test_fsdp_gradient_clipping_raises] passes then the run ended with a
    trainer built with [gradient_clip_val=1] and
    [gradient_clip_algorithm="norm"] whose [fit] raised an instance of
    [MisconfigurationException] saying that norm-based clipping is not
    supported for the fully sharded plugin. *)
Lemma clipping_test_requires_norm_refused h w mro tmpdir :
  result (run h (test_fsdp_gradient_clipping_raises mro tmpdir) w) = Returned PyNone ->
  exists tr args trainer model e,
    trace (run h (test_fsdp_gradient_clipping_raises mro tmpdir) w) =
      tr ++ [Event (S := test) (Trainer_new args) (Returned trainer);
             Event (S := test) (Trainer_fit trainer model) (Raised e)] /\
    gradient_clip_algorithm args = "norm" /\
    gradient_clip_val args = 1%Z /\
    isinstance_exn mro e "MisconfigurationException" = true /\
    occurs norm_not_supported (exn_msg e) = true.
Proof.
  unfold test_fsdp_gradient_clipping_raises, __init__, pytest_raises. simpl.
  destruct (h BoringModel_init w) as [[v | e] w1]; simpl; [| intros [=]].
  destruct (h DDPFullyShardedStrategy_new w1) as [[strategy_ | e] w2]; simpl; [| intros [=]].
  destruct (h (FullyShardedMixedPrecisionPlugin_new _) w2) as [[plugin | e] w3];
    simpl; [| intros [=]].
  destruct (h (Trainer_new _) w3) as [[trainer | e] w4] eqn:Htrainer; simpl; [| intros [=]].
  destruct (h (Trainer_fit _ _) w4) as [[v' | e] w5]; simpl; [intros [=] |].
  destruct (isinstance_exn mro e "MisconfigurationException") eqn:Hclass; [| intros [=]].
  destruct (occurs norm_not_supported (exn_msg e)) eqn:Hmsg; [| intros [=]].
  intros _. eexists [_; _; _], _, trainer, _, e.
  split; [reflexivity |].
  repeat split; assumption.
Qed.


End claims.

(** *** The theorems at concrete inputs *)

Lemma configure_sharded_model_keeps_wrapped_witness :
  let self := Model (Some (FullyShardedDataParallel
                             (Sequential [Linear 32 32; ReLU; Linear 32 2]) false true)) in
  isinstance_FullyShardedDataParallel (layer self) = true /\
  run (framework fit_of_test) (configure_sharded_model self) world0 =
  Execution (Returned self) world0 [].
Proof.
  split; [reflexivity |].
  apply (configure_sharded_model_keeps_wrapped (framework fit_of_test) world0).
  reflexivity.
Defined.


(** The framework of the spec does what the claim says, and on it the test
    ends with pytest's failure, no collaborator having raised. *)
Example norm_clipping_accepted_fails_the_test :
  (forall args, gradient_clip_algorithm args = "norm" -> fit_of_spec args = Returned PyNone) /\
  (forall args, gradient_clip_algorithm args = "value" ->
     exists msg, fit_of_spec args = Raised (Exn "MisconfigurationException" msg)) /\
  result (run (framework fit_of_spec)
            (test_fsdp_gradient_clipping_raises exception_mro "/tmp") world0)
    = Raised (Exn "Failed" "DID NOT RAISE MisconfigurationException").
Proof.
  split; [| split].
  - intros args Hnorm. unfold fit_of_spec. rewrite Hnorm. reflexivity.
  - intros args Hvalue. unfold fit_of_spec. rewrite Hvalue. eexists. reflexivity.
  - vm_compute. reflexivity.
Qed.

(** On a framework that refuses norm-based clipping the test passes, also
    when the exception is of a class derived from
    [MisconfigurationException]. *)
Example clipping_test_passes_where_norm_is_refused :
  result (run (framework fit_of_test)
            (test_fsdp_gradient_clipping_raises exception_mro "/tmp") world0)
    = Returned PyNone /\
  result (run (framework (fun _ =>
                 Raised (Exn "GradientClippingError"
                           "`gradient_clip_algorithm='norm'` is currently not supported for `FullyShardedMixedPrecisionPlugin`")))
            (test_fsdp_gradient_clipping_raises exception_mro "/tmp") world0)
    = Returned PyNone.
Proof. vm_compute. split; reflexivity. Qed.

(** A model that was set up and configured on a wrapping framework: the
    two linear layers and the whole are sharded, the activation is not. *)
Example configure_sharded_model_wraps :
  let ex := run (framework fit_of_test)
              (configure_sharded_model (setup (Model None) "fit")) world0 in
  result ex =
    Returned (Model (Some (FullyShardedDataParallel
      (Sequential [FullyShardedDataParallel (Linear 32 32) true false; ReLU;
                   FullyShardedDataParallel (Linear 32 2) true false]) true false))) /\
  length (trace ex) = 3.
Proof. vm_compute. split; reflexivity. Qed.

(** A model whose layer was never built cannot be configured. *)
Example configure_sharded_model_without_layer :
  result (run (framework fit_of_test) (configure_sharded_model (Model None)) world0) =
  Raised (Exn "TypeError" "'NoneType' object is not iterable").
Proof. vm_compute. reflexivity. Qed.

End test_ddp_fully_sharded_proofs.

(** ** Runs that return *)

Module Py_inversion.
Import Py Py_facts.

Section runs.
Context {S : signature} {W : Type}.
Implicit Types h : handler S W.

(** A sequence returns when both parts do; its trace is theirs, in order. *)
Lemma bind_returned {A B} h (p : py S A) (f : A -> py S B) w v :
  result (run h (p ≫= f) w) = Returned v ->
  exists a,
    result (run h p w) = Returned a /\
    result (run h (f a) (final (run h p w))) = Returned v /\
    trace (run h (p ≫= f) w) =
      trace (run h p w) ++ trace (run h (f a) (final (run h p w))) /\
    final (run h (p ≫= f) w) = final (run h (f a) (final (run h p w))).
Proof.
  rewrite run_bind. destruct (result (run h p w)) as [a | e]; simpl; [| intros [=]].
  intros Hv. exists a. repeat split. exact Hv.
Qed.

Lemma ret_returned {A} h (a : A) w v :
  result (run h (mret a) w) = Returned v ->
  v = a /\ trace (run h (mret a) w) = [] /\ final (run h (mret a) w) = w.
Proof. simpl. intros [= <-]. repeat split. Qed.

End runs.

End Py_inversion.

(** ** The precision adapter: arguments, failures, returns *)

Module sharded_amp_more.
Import Py Py_facts sharded_amp sharded_amp_scenarios sharded_amp_proofs.

Section runs.
Context {W : Type}.
Implicit Types (h : handler amp W) (self optimizer : ref) (precision : precision_t).
Implicit Types (device : string) (scaler : option ref) (clip_val : number).

(** X1.  Whatever the collaborators do, the base constructor is called at
    most once, with [self], the precision and the device exactly as the
    plugin constructor received them (the integer 16 stays an integer), and
    at most one grad scaler is built. *)
Theorem base_constructor_arguments_unchanged h w self precision device scaler :
  let ex := run h (__init__ self precision device scaler) w in
  Forall (fun ev : event amp => forall self' precision' device' scaler',
            ev_call ev = MixedPrecisionPlugin_init self' precision' device' scaler' ->
            self' = self /\ precision' = precision /\ device' = device)
         (trace ex) /\
  length (forwarded_scalers (trace ex)) <= 1 /\
  length (constructed_scalers (trace ex)) <= 1.
Proof.
  rewrite run_init.
  destruct (is_None scaler && String.eqb (str precision) "16"); simpl.
  - destruct (h ShardedGradScaler_new w) as [[r | e] w1]; simpl.
    + split; [| split; lia].
      rewrite !Forall_cons, Forall_nil. simpl.
      repeat apply conj; try exact I; intros ? ? ? ? [=]; subst; auto.
    + split; [| split; lia].
      rewrite !Forall_cons, Forall_nil. simpl.
      repeat apply conj; try exact I; intros ? ? ? ? [=].
  - split; [| split; lia].
    rewrite !Forall_cons, Forall_nil. simpl.
    repeat apply conj; try exact I; intros ? ? ? ? [=]; subst; auto.
Qed.

(** X2.  When a grad scaler is due (precision "16" or 16, none supplied)
    and [ShardedGradScaler()] raises, the constructor ends with that very
    exception, in the world the failed call left, and the base constructor
    is never called. *)
Theorem scaler_constructor_failure h w self precision device e :
  resolves_to_16bit_float precision ->
  (h ShardedGradScaler_new w).1 = Raised e ->
  let ex := run h (__init__ self precision device None) w in
  result ex = Raised e /\
  final ex = (h ShardedGradScaler_new w).2 /\
  calls ex = [ShardedGradScaler_new] /\
  forwarded_scalers (trace ex) = [].
Proof.
  intros Hprecision Hnew ex. subst ex. rewrite run_init.
  apply str_16 in Hprecision. rewrite Hprecision. simpl.
  destruct (h ShardedGradScaler_new w) as [[r | e'] w1]; simpl in *; [discriminate |].
  injection Hnew as ->. repeat split.
Qed.

(** X3.  Neither method swallows an exception of a collaborator or adds
    one of its own: the constructor returns [None] exactly when every
    collaborator call it made returned, and so does [clip_grad_by_norm]. *)
Theorem adapter_returns_iff_collaborators_return
    h w self precision device scaler optimizer clip_val :
  (result (run h (__init__ self precision device scaler) w) = Returned PyNone <->
   Forall (fun ev : event amp => ev_raised ev = None)
          (trace (run h (__init__ self precision device scaler) w))) /\
  (result (run h (clip_grad_by_norm self optimizer clip_val) w) = Returned PyNone <->
   Forall (fun ev : event amp => ev_raised ev = None)
          (trace (run h (clip_grad_by_norm self optimizer clip_val) w))).
Proof.
  split.
  - rewrite run_init.
    destruct (is_None scaler && String.eqb (str precision) "16"); simpl.
    + destruct (h ShardedGradScaler_new w) as [[r | e] w1]; simpl.
      * destruct (h (MixedPrecisionPlugin_init _ _ _ _) _) as [[v | e] w2]; simpl.
        -- split; [intros _ | intros _; reflexivity].
           repeat (apply Forall_cons; split; [reflexivity |]). constructor.
        -- split; [intros [=] |].
           intros H. apply Forall_cons in H as [_ H].
           apply Forall_cons in H as [H _]. discriminate H.
      * split; [intros [=] |].
        intros H. apply Forall_cons in H as [H _]. discriminate H.
    + destruct (h (MixedPrecisionPlugin_init _ _ _ _) _) as [[v | e] w2]; simpl.
      * split; [intros _ | intros _; reflexivity].
        repeat (apply Forall_cons; split; [reflexivity |]). constructor.
      * split; [intros [=] |].
        intros H. apply Forall_cons in H as [H _]. discriminate H.
  - rewrite run_clip_grad_by_norm.
    destruct (h (OSS_clip_grad_norm _ _) _) as [[v | e] w1]; simpl.
    + split; [intros _ | intros _; reflexivity].
      repeat (apply Forall_cons; split; [reflexivity |]). constructor.
    + split; [intros [=] |].
      intros H. apply Forall_cons in H as [H _]. discriminate H.
Qed.

End runs.

(** *** At concrete inputs *)

Lemma scaler_constructor_failure_witness :
  resolves_to_16bit_float (PStr "16") /\
  (collaborators_without_scaler ShardedGradScaler_new heap0).1
    = Raised (Exn "RuntimeError" "CUDA error") /\
  result (run collaborators_without_scaler (__init__ 1 (PStr "16") "cuda" None) heap0)
    = Raised (Exn "RuntimeError" "CUDA error") /\
  forwarded_scalers
    (trace (run collaborators_without_scaler (__init__ 1 (PStr "16") "cuda" None) heap0)) = [].
Proof.
  assert (Hp : resolves_to_16bit_float (PStr "16")) by (left; reflexivity).
  assert (Hn : (collaborators_without_scaler ShardedGradScaler_new heap0).1
               = Raised (Exn "RuntimeError" "CUDA error")) by reflexivity.
  split; [exact Hp |]. split; [exact Hn |].
  destruct (scaler_constructor_failure collaborators_without_scaler heap0 1 (PStr "16")
              "cuda" _ Hp Hn) as (Hres & _ & _ & Hfw).
  split; [exact Hres | exact Hfw].
Defined.

End sharded_amp_more.

(** ** The manually wrapped model *)

Module test_ddp_fully_sharded_more.
Import Py Py_facts Py_inversion test_ddp_fully_sharded test_ddp_fully_sharded_stages.
Import test_ddp_fully_sharded_proofs.

Section wrapping.
Context {W : Type}.
Implicit Types (h : handler test W) (self : TestFSDPModelManualWrapped).
Implicit Types (layers : list Module_).

(** The loop, when it returns: as many entries as before, the entries at
    odd indices untouched, one [wrap] per entry at an even index, in
    order, and what those calls returned at the even indices. *)
Lemma wrap_even_returned h layers : forall i w layers',
  result (run h (wrap_even i layers) w) = Returned layers' ->
  length layers' = length layers /\
  (forall j, (i + j) mod 2 = 1 -> layers' !! j = layers !! j) /\
  calls (run h (wrap_even i layers) w) = wrap <$> even_entries i layers /\
  omap wrapped_reply (trace (run h (wrap_even i layers) w)) = even_entries i layers'.
Proof.
  induction layers as [| layer rest IH]; intros i w layers' Hrun.
  - simpl in Hrun. injection Hrun as <-. repeat split.
  - cbn [wrap_even even_entries] in *.
    apply bind_returned in Hrun as (layer' & Hhead & Hrun & Htrace & _).
    apply bind_returned in Hrun as (rest' & Hrest & Hret & Htrace' & _).
    apply ret_returned in Hret as (-> & Hnil & _).
    specialize (IH _ _ _ Hrest) as (Hlen & Hodd & Hcalls & Hreplies).
    unfold calls in *.
    rewrite Htrace, Htrace', Hnil, app_nil_r, fmap_app, omap_app, Hcalls, Hreplies.
    split; [simpl; lia |]. split.
    + intros [| j] Hj; simpl.
      * replace (i + 0) with i in Hj by lia.
        destruct (Nat.eqb_spec (i mod 2) 0) as [E | _]; [lia |].
        apply ret_returned in Hhead as (-> & _). reflexivity.
      * apply Hodd. replace (S i + j) with (i + S j) by lia. exact Hj.
    + clear Hrest Hodd Hcalls Hreplies Htrace Htrace'.
      cbn [even_entries].
      destruct (Nat.eqb (i mod 2) 0); simpl in *.
      * destruct (h (wrap layer) w) as [[x | e] w1]; simpl in *; [| discriminate].
        injection Hhead as ->. split; reflexivity.
      * injection Hhead as ->. split; reflexivity.
Qed.

(** With a [wrap] that shards what it is given, every entry at an even
    index comes back sharded, resharding after the forward pass. *)
Lemma wrap_even_sharded h (flag : bool) layers :
  (forall module w',
     match (h (wrap module) w').1 with
     | Returned wrapped =>
         exists mp, wrapped = FullyShardedDataParallel module true mp /\ (flag = true -> mp = true)
     | Raised _ => True
     end) ->
  forall i w layers',
  result (run h (wrap_even i layers) w) = Returned layers' ->
  forall j, (i + j) mod 2 = 0 -> j < length layers ->
  exists module mp,
    layers' !! j = Some (FullyShardedDataParallel module true mp) /\ (flag = true -> mp = true).
Proof.
  intros Hwrap. induction layers as [| layer rest IH]; intros i w layers' Hrun j Hj Hlt.
  - simpl in Hlt. lia.
  - cbn [wrap_even] in Hrun.
    apply bind_returned in Hrun as (layer' & Hhead & Hrun & _).
    apply bind_returned in Hrun as (rest' & Hrest & Hret & _).
    apply ret_returned in Hret as (-> & _).
    destruct j as [| j]; simpl.
    + replace (i + 0) with i in Hj by lia. rewrite Hj in Hhead. simpl in Hhead.
      specialize (Hwrap layer w).
      destruct (h (wrap layer) w) as [[x | e] w1]; simpl in *; [| discriminate].
      injection Hhead as ->. destruct Hwrap as (mp & -> & Hmp). eauto.
    + apply (IH _ _ _ Hrest j); [| simpl in Hlt; lia].
      replace (S i + j) with (i + S j) by lia. exact Hj.
Qed.

(** X4.  On a model whose layer is a [Sequential], a
    [configure_sharded_model] that returns has called [wrap] once for each
    entry at an even index, in order, and then once for the [Sequential]
    of the results: that [Sequential] has as many entries as before, at its
    even indices what those calls returned, in order, and at its odd
    indices (the activations) the entries as they were; and the model's
    layer is what the last [wrap] returned. *)
Theorem configure_sharded_model_wraps_even_entries h w self layers self' :
  layer self = Some (Sequential layers) ->
  result (run h (configure_sharded_model self) w) = Returned self' ->
  exists layers' wrapped,
    length layers' = length layers /\
    (forall j, j mod 2 = 1 -> layers' !! j = layers !! j) /\
    calls (run h (configure_sharded_model self) w) =
      (wrap <$> even_entries 0 layers) ++ [wrap (Sequential layers')] /\
    omap wrapped_reply (trace (run h (configure_sharded_model self) w)) =
      even_entries 0 layers' ++ [wrapped] /\
    last (trace (run h (configure_sharded_model self) w)) =
      Some (Event (S := test) (wrap (Sequential layers')) (Returned wrapped)) /\
    self' = Model (Some wrapped).
Proof.
  intros Hlayer. unfold configure_sharded_model. rewrite Hlayer. simpl isinstance_FullyShardedDataParallel.
  cbv iota. intros Hrun.
  apply bind_returned in Hrun as (layers' & Hloop & Hrun & Htrace & _).
  apply bind_returned in Hrun as (wrapped & Hwrap & Hret & Htrace' & _).
  apply ret_returned in Hret as (-> & Hnil & _).
  apply wrap_even_returned in Hloop as (Hlen & Hodd & Hcalls & Hreplies).
  exists layers', wrapped. split; [exact Hlen |]. split; [exact Hodd |].
  unfold calls in *. rewrite Htrace, Htrace', Hnil, app_nil_r. clear Htrace Htrace' Hnil.
  simpl in *.
  destruct (h (wrap (Sequential layers')) _) as [[x | e] w1]; simpl in *; [| discriminate].
  injection Hwrap as ->.
  rewrite fmap_app, omap_app, Hcalls, Hreplies.
  split; [reflexivity |]. split; [reflexivity |]. split; [apply last_snoc | reflexivity].
Qed.

(** X5.  On a model whose layer was never built, or is a single module
    that cannot be iterated, [configure_sharded_model] raises [TypeError]
    at once: nothing is wrapped and the world is untouched. *)
Theorem configure_sharded_model_needs_a_sequential h w self :
  isinstance_FullyShardedDataParallel (layer self) = false ->
  (forall layers, layer self <> Some (Sequential layers)) ->
  exists msg,
    run h (configure_sharded_model self) w = Execution (Raised (Exn "TypeError" msg)) w [].
Proof.
  intros Hfsdp Hseq. unfold configure_sharded_model. rewrite Hfsdp.
  destruct (layer self) as [[i o | | layers | m r mp] |]; simpl in *;
    try discriminate; try (eexists; reflexivity).
  destruct (Hseq layers). reflexivity.
Qed.

(** X7.  Loading a checkpoint rebuilds the layer unwrapped, whatever the
    model was (sharded already or not): a [configure_sharded_model] that
    then returns has wrapped the two linear layers and the whole anew. *)
Theorem on_load_checkpoint_then_configure h w self checkpoint self' :
  result (run h (configure_sharded_model (on_load_checkpoint self checkpoint)) w)
    = Returned self' ->
  exists first third wrapped,
    calls (run h (configure_sharded_model (on_load_checkpoint self checkpoint)) w) =
      [wrap (Linear 32 32); wrap (Linear 32 2); wrap (Sequential [first; ReLU; third])] /\
    self' = Model (Some wrapped).
Proof.
  unfold on_load_checkpoint, _init_model, configure_sharded_model. simpl. intros Hrun.
  destruct (h (wrap (Linear 32 32)) w) as [[first | e] w1]; simpl in *; [| discriminate].
  destruct (h (wrap (Linear 32 2)) w1) as [[third | e] w2]; simpl in *; [| discriminate].
  destruct (h (wrap (Sequential _)) w2) as [[wrapped | e] w3]; simpl in *; [| discriminate].
  injection Hrun as <-. exists first, third, wrapped. split; reflexivity.
Qed.

(** X8.  The layout that [configure_sharded_model] builds is the one
    [_assert_layer_fsdp_instance] checks.  Take a model whose layer is a
    [Sequential] of at least three entries and a [wrap] that shards the
    module it is given with [reshard_after_forward=True] (and with mixed
    precision when the precision plugin is the fully sharded one).  If
    [configure_sharded_model] returns, the assertions pass on the model it
    leaves. *)
Theorem assertions_pass_after_configure h w self layers self' (flag : bool) :
  layer self = Some (Sequential layers) ->
  3 <= length layers ->
  (forall module w',
     match (h (wrap module) w').1 with
     | Returned wrapped =>
         exists mp, wrapped = FullyShardedDataParallel module true mp /\ (flag = true -> mp = true)
     | Raised _ => True
     end) ->
  result (run h (configure_sharded_model self) w) = Returned self' ->
  _assert_layer_fsdp_instance self' flag = Returned PyNone.
Proof.
  intros Hlayer Hlen Hwrap. unfold configure_sharded_model. rewrite Hlayer.
  simpl isinstance_FullyShardedDataParallel. cbv iota. intros Hrun.
  apply bind_returned in Hrun as (layers' & Hloop & Hrun & _).
  apply bind_returned in Hrun as (wrapped & Hroot & Hret & _).
  apply ret_returned in Hret as (-> & _).
  destruct (wrap_even_sharded h flag layers Hwrap _ _ _ Hloop 0 eq_refl ltac:(lia))
    as (m0 & mp0 & Hentry0 & Hmp0).
  destruct (wrap_even_sharded h flag layers Hwrap _ _ _ Hloop 2 eq_refl ltac:(lia))
    as (m2 & mp2 & Hentry2 & Hmp2).
  specialize (Hwrap (Sequential layers') (final (run h (wrap_even 0 layers) w))).
  simpl in Hroot.
  destruct (h (wrap (Sequential layers')) _) as [[x | e] w1]; simpl in *; [| discriminate].
  injection Hroot as ->. destruct Hwrap as (mp & -> & Hmp).
  unfold _assert_layer_fsdp_instance. simpl. rewrite Hentry0, Hentry2. simpl.
  destruct flag; [| reflexivity].
  rewrite (Hmp eq_refl), (Hmp0 eq_refl), (Hmp2 eq_refl). reflexivity.
Qed.

End wrapping.

(** *** At concrete inputs *)

Lemma configure_sharded_model_wraps_even_entries_witness :
  let self := setup (Model None) "fit" in
  let ex := run (framework fit_of_test) (configure_sharded_model self) world0 in
  let sharded m := FullyShardedDataParallel m true false in
  let self' := Model (Some (sharded (Sequential [sharded (Linear 32 32); ReLU;
                                                 sharded (Linear 32 2)]))) in
  layer self = Some (Sequential [Linear 32 32; ReLU; Linear 32 2]) /\
  result ex = Returned self' /\
  exists layers' wrapped,
    length layers' = 3 /\
    (forall j, j mod 2 = 1 -> layers' !! j = [Linear 32 32; ReLU; Linear 32 2] !! j) /\
    calls ex = [wrap (Linear 32 32); wrap (Linear 32 2)] ++ [wrap (Sequential layers')] /\
    omap wrapped_reply (trace ex) = even_entries 0 layers' ++ [wrapped] /\
    last (trace ex) = Some (Event (S := test) (wrap (Sequential layers')) (Returned wrapped)) /\
    self' = Model (Some wrapped).
Proof.
  intros self ex sharded self'.
  assert (Hlayer : layer self = Some (Sequential [Linear 32 32; ReLU; Linear 32 2]))
    by reflexivity.
  assert (Hrun : result ex = Returned self') by (vm_compute; reflexivity).
  split; [exact Hlayer |]. split; [exact Hrun |].
  exact (configure_sharded_model_wraps_even_entries (framework fit_of_test) world0 self
           _ self' Hlayer Hrun).
Defined.

Lemma configure_sharded_model_needs_a_sequential_witness :
  isinstance_FullyShardedDataParallel (layer (Model None)) = false /\
  (forall layers, layer (Model None) <> Some (Sequential layers)) /\
  exists msg,
    run (framework fit_of_test) (configure_sharded_model (Model None)) world0 =
    Execution (Raised (Exn "TypeError" msg)) world0 [].
Proof.
  assert (Hfsdp : isinstance_FullyShardedDataParallel (layer (Model None)) = false)
    by reflexivity.
  assert (Hseq : forall layers, layer (Model None) <> Some (Sequential layers))
    by (intros layers; discriminate).
  split; [exact Hfsdp |]. split; [exact Hseq |].
  exact (configure_sharded_model_needs_a_sequential (framework fit_of_test) world0
           (Model None) Hfsdp Hseq).
Defined.

Lemma configure_sharded_model_idempotent_witness :
  let self := setup (Model None) "fit" in
  let ex := run (framework fit_of_test) (configure_sharded_model self) world0 in
  let sharded m := FullyShardedDataParallel m true false in
  let self' := Model (Some (sharded (Sequential [sharded (Linear 32 32); ReLU;
                                                 sharded (Linear 32 2)]))) in
  (forall module w',
     match (framework fit_of_test (wrap module) w').1 with
     | Returned wrapped => isinstance_FullyShardedDataParallel (Some wrapped) = true
     | Raised _ => True
     end) /\
  result ex = Returned self' /\
  run (framework fit_of_test) (configure_sharded_model self') (final ex) =
  Execution (Returned self') (final ex) [].
Proof.
  intros self ex sharded self'.
  assert (Hwrap : forall module w',
     match (framework fit_of_test (wrap module) w').1 with
     | Returned wrapped => isinstance_FullyShardedDataParallel (Some wrapped) = true
     | Raised _ => True
     end) by (intros module w'; reflexivity).
  assert (Hrun : result ex = Returned self') by (vm_compute; reflexivity).
  split; [exact Hwrap |]. split; [exact Hrun |].
  exact (configure_sharded_model_idempotent (framework fit_of_test) world0 self self'
           Hwrap Hrun).
Defined.

Lemma on_load_checkpoint_then_configure_witness :
  let sharded m := FullyShardedDataParallel m true false in
  let self := Model (Some (sharded (Sequential [sharded (Linear 32 32); ReLU;
                                                sharded (Linear 32 2)]))) in
  let ex := run (framework fit_of_test)
              (configure_sharded_model (on_load_checkpoint self ∅)) world0 in
  result ex = Returned self /\
  exists first third wrapped,
    calls ex = [wrap (Linear 32 32); wrap (Linear 32 2);
                wrap (Sequential [first; ReLU; third])] /\
    self = Model (Some wrapped).
Proof.
  intros sharded self ex.
  assert (Hrun : result ex = Returned self) by (vm_compute; reflexivity).
  split; [exact Hrun |].
  exact (on_load_checkpoint_then_configure (framework fit_of_test) world0 self ∅ self Hrun).
Defined.

Lemma assertions_pass_after_configure_witness :
  let self := setup (Model None) "fit" in
  let ex := run (framework fit_of_test) (configure_sharded_model self) world0 in
  let sharded m := FullyShardedDataParallel m true false in
  let self' := Model (Some (sharded (Sequential [sharded (Linear 32 32); ReLU;
                                                 sharded (Linear 32 2)]))) in
  layer self = Some (Sequential [Linear 32 32; ReLU; Linear 32 2]) /\
  3 <= length [Linear 32 32; ReLU; Linear 32 2] /\
  (forall module w',
     match (framework fit_of_test (wrap module) w').1 with
     | Returned wrapped =>
         exists mp, wrapped = FullyShardedDataParallel module true mp /\ (false = true -> mp = true)
     | Raised _ => True
     end) /\
  result ex = Returned self' /\
  _assert_layer_fsdp_instance self' false = Returned PyNone.
Proof.
  intros self ex sharded self'.
  assert (Hlayer : layer self = Some (Sequential [Linear 32 32; ReLU; Linear 32 2]))
    by reflexivity.
  assert (Hlen : 3 <= length [Linear 32 32; ReLU; Linear 32 2]) by (simpl; lia).
  assert (Hwrap : forall module w',
     match (framework fit_of_test (wrap module) w').1 with
     | Returned wrapped =>
         exists mp, wrapped = FullyShardedDataParallel module true mp /\ (false = true -> mp = true)
     | Raised _ => True
     end) by (intros module w'; simpl; exists false; split; [reflexivity | discriminate]).
  assert (Hrun : result ex = Returned self') by (vm_compute; reflexivity).
  repeat (split; [assumption |]).
  exact (assertions_pass_after_configure (framework fit_of_test) world0 self _ self' false
           Hlayer Hlen Hwrap Hrun).
Defined.

End test_ddp_fully_sharded_more.

(** ** The checkpoint comparison and the stages *)

Module test_ddp_fully_sharded_stages_proofs.
Import Py Py_facts Py_inversion test_ddp_fully_sharded_stages.

Lemma zip_length {A B} (a : list A) (b : list B) :
  length (zip_ a b) = Nat.min (length a) (length b).
Proof.
  revert b. induction a as [| x a IH]; intros [| y b]; simpl; try reflexivity.
  rewrite IH. reflexivity.
Qed.

(** Comparing tensors builds, saves, loads and runs nothing. *)
Lemma milestones_comparisons (pairs copies : list (ref * ref)) :
  milestones (comparisons pairs copies) = [].
Proof.
  revert copies. induction pairs as [| p pairs IH]; intros [| c copies]; try reflexivity.
  simpl. apply IH.
Qed.

Section runs.
Context {W : Type}.
Implicit Types (h : handler stages W) (trainer : ref) (pairs : list (ref * ref)).

(** Compute one call of a run kept in a hypothesis of the form
    [ex = run ...], and split on what the collaborator did. *)
Ltac compute_in Hex :=
  cbn [run bind mbind py_bind mret py_ret invoke fst snd result final trace
       renew class_of address] in Hex.

Tactic Notation "next_call" "in" hyp(Hex) "as" simple_intropattern(reply) :=
  compute_in Hex;
  match type of Hex with
  | context [?h ?c ?w] =>
      match type of h with
      | handler _ _ => destruct (h c w) as reply
      end
  end;
  compute_in Hex.

(** The loop, when it returns: one passing comparison per pair, in order. *)
Lemma assert_params_equal_returned_aux h pairs : forall w v,
  result (run h (assert_params_equal pairs) w) = Returned v ->
  v = PyNone /\
  exists copies,
    length copies = length pairs /\
    trace (run h (assert_params_equal pairs) w) = comparisons pairs copies.
Proof.
  induction pairs as [| [a b] pairs IH]; intros w v Hrun.
  - simpl in Hrun. injection Hrun as <-. split; [reflexivity |]. exists []. split; reflexivity.
  - remember (run h (assert_params_equal ((a, b) :: pairs)) w) as ex eqn:Hex.
    cbn [assert_params_equal] in Hex.
    next_call in Hex as [[as_float | e] w1]; [| subst ex; discriminate].
    next_call in Hex as [[on_cpu | e] w2]; [| subst ex; discriminate].
    next_call in Hex as [[[|] | e] w3]; try (subst ex; discriminate).
    subst ex. cbn [result trace] in *.
    destruct (IH _ _ Hrun) as (-> & copies & Hlen & Htrace).
    split; [reflexivity |]. exists ((as_float, on_cpu) :: copies).
    split; [simpl; lia |]. rewrite Htrace. reflexivity.
Qed.

(** X9.  When no collaborator raises and the loop still ends with an
    exception, that exception is the [AssertionError] of the first pair
    found unequal: the pairs before it were compared and found equal, and
    no pair after it was touched. *)
Theorem assert_params_equal_stops_at_first_mismatch h pairs : forall w e,
  result (run h (assert_params_equal pairs) w) = Raised e ->
  Forall (fun ev : event stages => ev_raised ev = None)
         (trace (run h (assert_params_equal pairs) w)) ->
  e = Exn "AssertionError" "" /\
  exists k a b copies as_float on_cpu,
    pairs !! k = Some (a, b) /\
    length copies = k /\
    trace (run h (assert_params_equal pairs) w) =
      comparisons (take k pairs) copies ++
      [Event (S := stages) (tensor_float a) (Returned as_float);
       Event (S := stages) (tensor_cpu as_float) (Returned on_cpu);
       Event (S := stages) (torch_equal on_cpu b) (Returned false)].
Proof.
  induction pairs as [| [a b] pairs IH]; intros w e Hrun Hquiet.
  - simpl in Hrun. discriminate.
  - remember (run h (assert_params_equal ((a, b) :: pairs)) w) as ex eqn:Hex.
    cbn [assert_params_equal] in Hex.
    next_call in Hex as [[as_float | e1] w1].
    2: { subst ex. apply Forall_cons in Hquiet as [Hquiet _]. discriminate Hquiet. }
    next_call in Hex as [[on_cpu | e2] w2].
    2: { subst ex. apply Forall_cons in Hquiet as [_ Hquiet].
         apply Forall_cons in Hquiet as [Hquiet _]. discriminate Hquiet. }
    next_call in Hex as [[[|] | e3] w3].
    + subst ex. cbn [result trace] in *.
      do 3 apply Forall_cons in Hquiet as [_ Hquiet].
      destruct (IH _ _ Hrun Hquiet)
        as (-> & k & a' & b' & copies & fl & cp & Hk & Hlen & Htrace).
      split; [reflexivity |].
      exists (S k), a', b', ((as_float, on_cpu) :: copies), fl, cp.
      split; [exact Hk |]. split; [simpl; lia |]. rewrite Htrace. reflexivity.
    + subst ex. cbn [result trace] in *. injection Hrun as <-.
      split; [reflexivity |].
      exists 0, a, b, [], as_float, on_cpu. repeat split.
    + subst ex. do 2 apply Forall_cons in Hquiet as [_ Hquiet].
      apply Forall_cons in Hquiet as [Hquiet _]. discriminate Hquiet.
Qed.

(** X10.  On a process that is not the global zero,
    [_assert_save_equality] still takes part in gathering the state dict
    and then returns: the checkpoint is not loaded and no tensor is
    compared, so the check passes whatever the checkpoint holds. *)
Theorem save_equality_off_rank_zero h w trainer ckpt_path cls (sd : state_dict_t) w1 w2 :
  h (strategy_lightning_module_state_dict trainer) w = (Returned sd, w1) ->
  h (trainer_is_global_zero trainer) w1 = (Returned false, w2) ->
  run h (_assert_save_equality trainer ckpt_path cls) w =
  Execution (Returned PyNone) w2
    [Event (S := stages) (strategy_lightning_module_state_dict trainer) (Returned sd);
     Event (S := stages) (trainer_is_global_zero trainer) (Returned false)].
Proof.
  intros Hgather Hzero. unfold _assert_save_equality.
  cbn [run bind mbind py_bind mret py_ret invoke fst snd result final trace].
  rewrite Hgather. cbn [run bind fst snd result final trace].
  rewrite Hzero. reflexivity.
Qed.

(** X11.  On the global zero, a check that passes has loaded the
    checkpoint from [ckpt_path] and compared the gathered parameters with
    the loaded ones pair by pair in the order of the two state dicts, up to
    the end of the shorter one; the names of the parameters play no part,
    and what is beyond the shorter state dict is not looked at. *)
Theorem save_equality_compares_by_position
    h w trainer ckpt_path cls (sd sd' : state_dict_t) (saved_model : ref) w1 w2 w3 w4 v :
  h (strategy_lightning_module_state_dict trainer) w = (Returned sd, w1) ->
  h (trainer_is_global_zero trainer) w1 = (Returned true, w2) ->
  h (load_from_checkpoint cls ckpt_path) w2 = (Returned saved_model, w3) ->
  h (model_state_dict saved_model) w3 = (Returned sd', w4) ->
  result (run h (_assert_save_equality trainer ckpt_path cls) w) = Returned v ->
  exists copies,
    length copies = Nat.min (length sd) (length sd') /\
    trace (run h (_assert_save_equality trainer ckpt_path cls) w) =
      [Event (S := stages) (strategy_lightning_module_state_dict trainer) (Returned sd);
       Event (S := stages) (trainer_is_global_zero trainer) (Returned true);
       Event (S := stages) (load_from_checkpoint cls ckpt_path) (Returned saved_model);
       Event (S := stages) (model_state_dict saved_model) (Returned sd')] ++
      comparisons (zip_ (values sd) (values sd')) copies.
Proof.
  intros Hgather Hzero Hload Hstate. unfold _assert_save_equality.
  cbn [run bind mbind py_bind mret py_ret invoke fst snd result final trace].
  rewrite Hgather. cbn [run bind fst snd result final trace].
  rewrite Hzero. cbn [run bind fst snd result final trace].
  rewrite Hload. cbn [run bind fst snd result final trace].
  rewrite Hstate. cbn [run bind fst snd result final trace].
  intros Hrun.
  destruct (assert_params_equal_returned_aux h _ _ _ Hrun) as (_ & copies & Hlen & Htrace).
  exists copies. split.
  - rewrite Hlen, zip_length. unfold values. rewrite !length_fmap. reflexivity.
  - rewrite Htrace. reflexivity.
Qed.

(** A check that passes has at most loaded the checkpoint it was told to. *)
Lemma save_equality_milestones h w trainer ckpt_path cls v :
  result (run h (_assert_save_equality trainer ckpt_path cls) w) = Returned v ->
  milestones (trace (run h (_assert_save_equality trainer ckpt_path cls) w)) = [] \/
  milestones (trace (run h (_assert_save_equality trainer ckpt_path cls) w))
    = [Loaded cls ckpt_path].
Proof.
  intros Hrun.
  remember (run h (_assert_save_equality trainer ckpt_path cls) w) as ex eqn:Hex.
  unfold _assert_save_equality in Hex.
  next_call in Hex as [[sd | e] w1]; [| subst ex; discriminate].
  next_call in Hex as [[[|] | e] w2]; [| subst ex; left; reflexivity | subst ex; discriminate].
  next_call in Hex as [[saved_model | e] w3]; [| subst ex; discriminate].
  next_call in Hex as [[sd' | e] w4]; [| subst ex; discriminate].
  subst ex. cbn [result trace] in *.
  destruct (assert_params_equal_returned_aux h _ _ _ Hrun) as (_ & copies & _ & ->).
  right. unfold milestones. simpl. f_equal. apply milestones_comparisons.
Qed.

(** Nor does the check ask the checkpoint callback for a path. *)
Lemma comparisons_ask_no_path pairs copies :
  Forall (fun ev : event stages =>
            forall t, ev_call ev <> checkpoint_callback_last_model_path t)
         (comparisons pairs copies).
Proof.
  revert copies.
  induction pairs as [| p pairs IH]; intros [| c copies]; simpl; try apply Forall_nil_2.
  repeat (apply Forall_cons; split; [intros t; discriminate |]). apply IH.
Qed.

Lemma save_equality_asks_no_path h w trainer ckpt_path cls v :
  result (run h (_assert_save_equality trainer ckpt_path cls) w) = Returned v ->
  Forall (fun ev : event stages =>
            forall t, ev_call ev <> checkpoint_callback_last_model_path t)
         (trace (run h (_assert_save_equality trainer ckpt_path cls) w)).
Proof.
  intros Hrun.
  remember (run h (_assert_save_equality trainer ckpt_path cls) w) as ex eqn:Hex.
  unfold _assert_save_equality in Hex.
  next_call in Hex as [[sd | e] w1]; [| subst ex; discriminate].
  next_call in Hex as [[[|] | e] w2]; [| | subst ex; discriminate].
  - next_call in Hex as [[saved_model | e] w3]; [| subst ex; discriminate].
    next_call in Hex as [[sd' | e] w4]; [| subst ex; discriminate].
    subst ex. cbn [result trace] in *.
    destruct (assert_params_equal_returned_aux h _ _ _ Hrun) as (_ & copies & _ & ->).
    repeat (apply Forall_cons; split; [intros t; discriminate |]).
    apply comparisons_ask_no_path.
  - subst ex. cbn [trace].
    repeat (apply Forall_cons; split; [intros t; discriminate |]). constructor.
Qed.

(** The check in the middle of the stages: it returned, or the stages did not. *)
Ltac save_equality_in Hex exa Hexa Hchecked :=
  compute_in Hex; rewrite run_bind in Hex;
  match type of Hex with
  | context [run ?h (_assert_save_equality ?t ?p ?c) ?w] =>
      remember (run h (_assert_save_equality t p c) w) as exa eqn:Hexa
  end;
  destruct (result exa) eqn:Hchecked; [| subst; discriminate].

(** X12.  With a model of any class but the automatically wrapped one,
    stages that all return were run on one and the same model object: it
    was fitted, a checkpoint was saved, and then the model was tested and
    used for prediction, each first as it is and then from that very
    checkpoint; no model was built on the way. *)
Theorem stages_reuse_the_model h w trainer model model_path v :
  class_of model <> AutoWrapped ->
  result (run h (_run_multiple_stages trainer model model_path) w) = Returned v ->
  exists path loads,
    milestones (trace (run h (_run_multiple_stages trainer model model_path) w)) =
      [Fitted (address model); Saved path] ++ loads ++
      [Tested (address model) None; Tested (address model) (Some path);
       Predicted (address model) None; Predicted (address model) (Some path)] /\
    (loads = [] \/ loads = [Loaded (class_of model) path]).
Proof.
  intros Hclass Hrun.
  remember (run h (_run_multiple_stages trainer model model_path) w) as ex eqn:Hex.
  unfold _run_multiple_stages in Hex.
  next_call in Hex as [[fitted | e] w1]; [| subst ex; discriminate].
  destruct model as [cls model]; destruct cls as [| | name]; [| destruct Hclass; reflexivity |];
    (destruct (truthy model_path) as [path |];
     [| next_call in Hex as [[path | e] w2]; [| subst ex; discriminate]]);
    (next_call in Hex as [[saved | e] w3]; [| subst ex; discriminate]);
    save_equality_in Hex exa Hexa Hchecked;
    (next_call in Hex as [[tested | e] w4]; [| subst ex; discriminate]);
    (next_call in Hex as [[tested' | e] w5]; [| subst ex; discriminate]);
    (next_call in Hex as [[predicted | e] w6]; [| subst ex; discriminate]);
    (next_call in Hex as [[predicted' | e] w7]; [| subst ex; discriminate]);
    exists path, (milestones (trace exa)).
  all: split;
    [subst ex; cbn [trace]; unfold milestones; simpl; rewrite omap_app; reflexivity |].
  all: subst exa; eapply save_equality_milestones; exact Hchecked.
Qed.

(** X13.  With an automatically wrapped model, stages that all return
    have built a new model before every test and prediction and handed
    each stage the model built last: the fitted model is not used again and
    no model reaches two stages.  Five models are built; the third is
    dropped unused. *)
Theorem stages_renew_an_auto_wrapped_model h w trainer model model_path v :
  class_of model = AutoWrapped ->
  result (run h (_run_multiple_stages trainer model model_path) w) = Returned v ->
  exists path loads m1 m2 m3 m4 m5,
    milestones (trace (run h (_run_multiple_stages trainer model model_path) w)) =
      [Fitted (address model); Saved path] ++ loads ++
      [Built m1; Tested m1 None; Built m2; Tested m2 (Some path);
       Built m3; Built m4; Predicted m4 None; Built m5; Predicted m5 (Some path)] /\
    (loads = [] \/ loads = [Loaded AutoWrapped path]).
Proof.
  intros Hclass Hrun.
  remember (run h (_run_multiple_stages trainer model model_path) w) as ex eqn:Hex.
  unfold _run_multiple_stages in Hex.
  next_call in Hex as [[fitted | e] w1]; [| subst ex; discriminate].
  destruct model as [cls model]; simpl in Hclass; subst cls;
    (destruct (truthy model_path) as [path |];
     [| next_call in Hex as [[path | e] w2]; [| subst ex; discriminate]]);
    (next_call in Hex as [[saved | e] w3]; [| subst ex; discriminate]);
    save_equality_in Hex exa Hexa Hchecked;
    (next_call in Hex as [[m1 | e] w4]; [| subst ex; discriminate]);
    (next_call in Hex as [[tested | e] w5]; [| subst ex; discriminate]);
    (next_call in Hex as [[m2 | e] w6]; [| subst ex; discriminate]);
    (next_call in Hex as [[tested' | e] w7]; [| subst ex; discriminate]);
    (next_call in Hex as [[m3 | e] w8]; [| subst ex; discriminate]);
    (next_call in Hex as [[m4 | e] w9]; [| subst ex; discriminate]);
    (next_call in Hex as [[predicted | e] w10]; [| subst ex; discriminate]);
    (next_call in Hex as [[m5 | e] w11]; [| subst ex; discriminate]);
    (next_call in Hex as [[predicted' | e] w12]; [| subst ex; discriminate]);
    exists path, (milestones (trace exa)), m1, m2, m3, m4, m5.
  all: split;
    [subst ex; cbn [trace]; unfold milestones; simpl; rewrite omap_app; reflexivity |].
  all: subst exa; eapply save_equality_milestones; exact Hchecked.
Qed.

(** X14.  Stages that all return saved the checkpoint at [model_path] when
    one was given, without asking the checkpoint callback for anything;
    with no path or an empty one, they saved it at the path the callback
    returned right after the fit. *)
Theorem stages_checkpoint_path h w trainer model model_path v :
  result (run h (_run_multiple_stages trainer model model_path) w) = Returned v ->
  exists path,
    milestones (trace (run h (_run_multiple_stages trainer model model_path) w)) !! 1
      = Some (Saved path) /\
    match truthy model_path with
    | Some given =>
        path = given /\
        Forall (fun ev : event stages =>
                  forall t, ev_call ev <> checkpoint_callback_last_model_path t)
               (trace (run h (_run_multiple_stages trainer model model_path) w))
    | None =>
        trace (run h (_run_multiple_stages trainer model model_path) w) !! 1 =
        Some (Event (S := stages) (checkpoint_callback_last_model_path trainer)
                (Returned path))
    end.
Proof.
  intros Hrun.
  remember (run h (_run_multiple_stages trainer model model_path) w) as ex eqn:Hex.
  unfold _run_multiple_stages in Hex.
  next_call in Hex as [[fitted | e] w1]; [| subst ex; discriminate].
  destruct model as [cls model]; destruct cls as [| | name];
    (destruct (truthy model_path) as [path |];
     [| next_call in Hex as [[path | e] w2]; [| subst ex; discriminate]]);
    (next_call in Hex as [[saved | e] w3]; [| subst ex; discriminate]);
    save_equality_in Hex exa Hexa Hchecked;
    repeat (next_call in Hex as [[? | ?] ?]; [| subst ex; discriminate]);
    exists path; (split; [subst ex; reflexivity |]);
    try (subst ex; reflexivity).
  all: split; [reflexivity |]; subst ex; cbn [trace].
  all: repeat (apply Forall_cons; split; [intros t; discriminate |]).
  all: apply Forall_app; split;
    [subst exa; eapply save_equality_asks_no_path; exact Hchecked |].
  all: repeat (apply Forall_cons; split; [intros t; discriminate |]); constructor.
Qed.

End runs.

(** *** At concrete inputs *)

Lemma assert_params_equal_stops_at_first_mismatch_witness :
  let pairs := [(10%positive, 10%positive); (11%positive, 12%positive)] in
  let ex := run stage_framework (assert_params_equal pairs) (stage_world0 true) in
  result ex = Raised (Exn "AssertionError" "") /\
  Forall (fun ev : event stages => ev_raised ev = None) (trace ex) /\
  exists k a b copies as_float on_cpu,
    pairs !! k = Some (a, b) /\
    length copies = k /\
    trace ex =
      comparisons (take k pairs) copies ++
      [Event (S := stages) (tensor_float a) (Returned as_float);
       Event (S := stages) (tensor_cpu as_float) (Returned on_cpu);
       Event (S := stages) (torch_equal on_cpu b) (Returned false)].
Proof.
  intros pairs ex.
  assert (Hrun : result ex = Raised (Exn "AssertionError" "")) by (vm_compute; reflexivity).
  assert (Hquiet : Forall (fun ev : event stages => ev_raised ev = None) (trace ex)).
  { vm_compute. repeat (apply Forall_cons; split; [reflexivity |]). constructor. }
  split; [exact Hrun |]. split; [exact Hquiet |].
  exact (proj2 (assert_params_equal_stops_at_first_mismatch stage_framework pairs
                  (stage_world0 true) _ Hrun Hquiet)).
Defined.

Lemma save_equality_off_rank_zero_witness :
  let w := stage_world0 false in
  let sd := [("layer.0.weight", 10%positive); ("layer.2.weight", 11%positive)] in
  stage_framework (strategy_lightning_module_state_dict 1) w = (Returned sd, w) /\
  stage_framework (trainer_is_global_zero 1) w = (Returned false, w) /\
  run stage_framework (_assert_save_equality 1 "stale.ckpt" ManualWrapped) w =
  Execution (Returned PyNone) w
    [Event (S := stages) (strategy_lightning_module_state_dict 1) (Returned sd);
     Event (S := stages) (trainer_is_global_zero 1) (Returned false)].
Proof.
  intros w sd.
  assert (Hgather : stage_framework (strategy_lightning_module_state_dict 1) w
                    = (Returned sd, w)) by reflexivity.
  assert (Hzero : stage_framework (trainer_is_global_zero 1) w = (Returned false, w))
    by reflexivity.
  split; [exact Hgather |]. split; [exact Hzero |].
  exact (save_equality_off_rank_zero stage_framework w 1 "stale.ckpt" ManualWrapped sd w w
           Hgather Hzero).
Defined.

Lemma save_equality_compares_by_position_witness :
  let w := (stage_framework (trainer_save_checkpoint 1 "last.ckpt" true)
              (stage_world0 true)).2 in
  let sd := [("layer.0.weight", 10%positive); ("layer.2.weight", 11%positive)] in
  let w3 := (stage_framework (load_from_checkpoint ManualWrapped "last.ckpt") w).2 in
  stage_framework (strategy_lightning_module_state_dict 1) w = (Returned sd, w) /\
  stage_framework (trainer_is_global_zero 1) w = (Returned true, w) /\
  stage_framework (load_from_checkpoint ManualWrapped "last.ckpt") w
    = (Returned 20%positive, w3) /\
  stage_framework (model_state_dict 20) w3 = (Returned sd, w3) /\
  result (run stage_framework (_assert_save_equality 1 "last.ckpt" ManualWrapped) w)
    = Returned PyNone /\
  exists copies,
    length copies = Nat.min (length sd) (length sd) /\
    trace (run stage_framework (_assert_save_equality 1 "last.ckpt" ManualWrapped) w) =
      [Event (S := stages) (strategy_lightning_module_state_dict 1) (Returned sd);
       Event (S := stages) (trainer_is_global_zero 1) (Returned true);
       Event (S := stages) (load_from_checkpoint ManualWrapped "last.ckpt")
         (Returned 20%positive);
       Event (S := stages) (model_state_dict 20) (Returned sd)] ++
      comparisons (zip_ (values sd) (values sd)) copies.
Proof.
  intros w sd w3.
  assert (Hgather : stage_framework (strategy_lightning_module_state_dict 1) w
                    = (Returned sd, w)) by reflexivity.
  assert (Hzero : stage_framework (trainer_is_global_zero 1) w = (Returned true, w))
    by reflexivity.
  assert (Hload : stage_framework (load_from_checkpoint ManualWrapped "last.ckpt") w
                  = (Returned 20%positive, w3)) by (vm_compute; reflexivity).
  assert (Hstate : stage_framework (model_state_dict 20) w3 = (Returned sd, w3))
    by (vm_compute; reflexivity).
  assert (Hrun : result (run stage_framework
                           (_assert_save_equality 1 "last.ckpt" ManualWrapped) w)
                 = Returned PyNone) by (vm_compute; reflexivity).
  repeat (split; [assumption |]).
  exact (save_equality_compares_by_position stage_framework w 1 "last.ckpt" ManualWrapped
           sd sd 20%positive w w w3 w3 PyNone Hgather Hzero Hload Hstate Hrun).
Defined.

Lemma stages_reuse_the_model_witness :
  let model := ModelObj ManualWrapped 2 in
  let ex := run stage_framework (_run_multiple_stages 1 model (Some "/tmp/last.ckpt"))
              (stage_world0 true) in
  class_of model <> AutoWrapped /\
  result ex = Returned PyNone /\
  exists path loads,
    milestones (trace ex) =
      [Fitted 2; Saved path] ++ loads ++
      [Tested 2 None; Tested 2 (Some path); Predicted 2 None; Predicted 2 (Some path)] /\
    (loads = [] \/ loads = [Loaded ManualWrapped path]).
Proof.
  intros model ex.
  assert (Hclass : class_of model <> AutoWrapped) by discriminate.
  assert (Hrun : result ex = Returned PyNone) by (vm_compute; reflexivity).
  split; [exact Hclass |]. split; [exact Hrun |].
  exact (stages_reuse_the_model stage_framework (stage_world0 true) 1 model
           (Some "/tmp/last.ckpt") PyNone Hclass Hrun).
Defined.

Lemma stages_renew_an_auto_wrapped_model_witness :
  let model := ModelObj AutoWrapped 2 in
  let ex := run stage_framework (_run_multiple_stages 1 model None) (stage_world0 true) in
  class_of model = AutoWrapped /\
  result ex = Returned PyNone /\
  exists path loads m1 m2 m3 m4 m5,
    milestones (trace ex) =
      [Fitted 2; Saved path] ++ loads ++
      [Built m1; Tested m1 None; Built m2; Tested m2 (Some path);
       Built m3; Built m4; Predicted m4 None; Built m5; Predicted m5 (Some path)] /\
    (loads = [] \/ loads = [Loaded AutoWrapped path]).
Proof.
  intros model ex.
  assert (Hclass : class_of model = AutoWrapped) by reflexivity.
  assert (Hrun : result ex = Returned PyNone) by (vm_compute; reflexivity).
  split; [exact Hclass |]. split; [exact Hrun |].
  exact (stages_renew_an_auto_wrapped_model stage_framework (stage_world0 true) 1 model
           None PyNone Hclass Hrun).
Defined.

Lemma stages_checkpoint_path_witness :
  let model := ModelObj ManualWrapped 2 in
  let ex := run stage_framework (_run_multiple_stages 1 model (Some ""))
              (stage_world0 false) in
  result ex = Returned PyNone /\
  exists path,
    milestones (trace ex) !! 1 = Some (Saved path) /\
    trace ex !! 1 =
    Some (Event (S := stages) (checkpoint_callback_last_model_path 1) (Returned path)).
Proof.
  intros model ex.
  assert (Hrun : result ex = Returned PyNone) by (vm_compute; reflexivity).
  split; [exact Hrun |].
  exact (stages_checkpoint_path stage_framework (stage_world0 false) 1 model (Some "")
           PyNone Hrun).
Defined.

End test_ddp_fully_sharded_stages_proofs.
